(** * Webhook configuration loader (live_vlm_webui/webhook_config.py)

    A shallow embedding of [load_webhook_config] and of the Python
    built-ins it calls ([os.getenv], [str.strip], [str.lower], [float],
    [int], [logger.warning]), followed by the properties of the loader.

    Conventions of the embedding:
    - a Python [str] is the list of its Unicode code points;
    - a Python [float] is an IEEE-754 binary64 value ([spec_float] with
      53 bits of precision), decimal literals being rounded to nearest,
      ties to even, as CPython's [_Py_dg_strtod] does;
    - a Python [int] is an unbounded integer ([Z]);
    - the process environment [os.environ] is a finite map from variable
      names to values;
    - exceptions and the messages handed to [logger.warning] are threaded
      through a small exception-and-log monad. *)

From Stdlib Require Import ZArith NArith Bool List String Ascii Lia.
From Stdlib Require Import Floats.SpecFloat.
From stdpp Require Import base option list strings gmap.

Local Open Scope N_scope.

(** ** Characters and string literals *)

(** Code point of an ASCII character, and the [str] of an ASCII literal. *)
Definition chr (a : ascii) : N := N_of_ascii a.

Definition lit (s : string) : list N := map N_of_ascii (list_ascii_of_string s).

(** The byte classes of CPython's [pyctype.h]. *)
Definition Py_ISSPACE (c : N) : bool := ((9 <=? c) && (c <=? 13)) || (c =? 32).
Definition Py_ISDIGIT (c : N) : bool := (48 <=? c) && (c <=? 57).
Definition Py_ISUPPER (c : N) : bool := (65 <=? c) && (c <=? 90).
Definition Py_TOLOWER (c : N) : N := if Py_ISUPPER c then c + 32 else c.

(** [_Py_ascii_whitespace]: the ASCII code points for which [str.isspace]
    holds.  Unlike [Py_ISSPACE] it contains the separators 0x1C-0x1F. *)
Definition _Py_ascii_whitespace (c : N) : bool :=
  Py_ISSPACE c || ((28 <=? c) && (c <=? 31)).

(** ** The parts of the interpreter the loader depends on

    The Unicode character database decides what [str.strip], [str.lower],
    [float] and [int] do outside ASCII, and the interpreter's integer
    string conversion limit decides which digit strings [int] accepts.
    Both vary with the Python version, so they are parameters. *)

Inductive decimal_digit :=
  D0 | D1 | D2 | D3 | D4 | D5 | D6 | D7 | D8 | D9.

Definition digit_value (d : decimal_digit) : N :=
  match d with
  | D0 => 0 | D1 => 1 | D2 => 2 | D3 => 3 | D4 => 4
  | D5 => 5 | D6 => 6 | D7 => 7 | D8 => 8 | D9 => 9
  end.

(** [_PyUnicode_ToLowerFull] writes one to three code points. *)
Inductive lower_mapping :=
  | Lower1 (c1 : N)
  | Lower2 (c1 c2 : N)
  | Lower3 (c1 c2 c3 : N).

Definition lower_mapping_list (m : lower_mapping) : list N :=
  match m with
  | Lower1 c1 => [c1]
  | Lower2 c1 c2 => [c1; c2]
  | Lower3 c1 c2 c3 => [c1; c2; c3]
  end.

Class PythonRuntime := {
  (** [_PyUnicode_IsWhitespace], consulted for code points from 128 on. *)
  unicode_isspace : N -> bool;
  (** [_PyUnicode_ToDecimalDigit], consulted for code points from 128 on. *)
  unicode_todecimal : N -> option decimal_digit;
  (** Lowercase mapping of a code point from 128 on; the code points
      before and after it are passed because the mapping of capital sigma
      depends on them. *)
  unicode_tolower : list N -> N -> list N -> lower_mapping;
  (** [sys.get_int_max_str_digits()]; 0 means no limit, which is also the
      behaviour of interpreters that predate the limit. *)
  int_max_str_digits : N
}.

(** ** [str] methods *)

Module str.
Section Methods.
Context `{PythonRuntime}.

(** [Py_UNICODE_ISSPACE] *)
Definition isspace (c : N) : bool :=
  if c <? 128 then _Py_ascii_whitespace c else unicode_isspace c.

Fixpoint lstrip (s : list N) : list N :=
  match s with
  | [] => []
  | c :: r => if isspace c then lstrip r else s
  end.

Definition rstrip (s : list N) : list N := rev (lstrip (rev s)).

(** [s.strip()] *)
Definition strip (s : list N) : list N := rstrip (lstrip s).

Definition lower_char (before : list N) (c : N) (after : list N) : list N :=
  if c <? 128 then [Py_TOLOWER c]
  else lower_mapping_list (unicode_tolower before c after).

Fixpoint lower_from (before s : list N) : list N :=
  match s with
  | [] => []
  | c :: r => lower_char before c r ++ lower_from (before ++ [c]) r
  end.

(** [s.lower()] *)
Definition lower (s : list N) : list N := lower_from [] s.

(** [_PyUnicode_TransformDecimalAndSpaceToASCII]: the first step of
    [float(s)] and [int(s)].  ASCII is kept, other whitespace becomes a
    space, other decimal digits become ASCII digits, and the string is
    cut at the first other code point, which becomes a question
    mark. *)
Fixpoint TransformDecimalAndSpaceToASCII (s : list N) : list N :=
  match s with
  | [] => []
  | c :: r =>
      if c <? 128 then c :: TransformDecimalAndSpaceToASCII r
      else if unicode_isspace c then chr " " :: TransformDecimalAndSpaceToASCII r
      else match unicode_todecimal c with
           | Some d => (chr "0" + digit_value d) :: TransformDecimalAndSpaceToASCII r
           | None => [chr "?"]
           end
  end.
End Methods.
End str.

(** ** Scanning helpers shared by [float] and [int] *)

(** The longest prefix of ASCII digits, as digit values, and the rest. *)
Fixpoint scan_digits (s : list N) : list N * list N :=
  match s with
  | [] => ([], [])
  | c :: r =>
      if Py_ISDIGIT c
      then let '(ds, rest) := scan_digits r in ((c - chr "0") :: ds, rest)
      else ([], s)
  end.

Definition digits_value (ds : list N) : N :=
  fold_left (fun acc d => 10 * acc + d) ds 0.

(** An optional sign: [true] for minus. *)
Definition scan_sign (s : list N) : bool * list N :=
  match s with
  | c :: r =>
      if c =? chr "-" then (true, r)
      else if c =? chr "+" then (false, r)
      else (false, s)
  | [] => (false, s)
  end.

Fixpoint skip_spaces (s : list N) : list N :=
  match s with
  | [] => []
  | c :: r => if Py_ISSPACE c then skip_spaces r else s
  end.

(** ** [float(s)] *)

Module float.

Definition prec : Z := 53.
Definition emax : Z := 1024.

(** The binary64 value nearest to [m * 10^e] (ties to even), with the
    sign [neg]; [m] is not negative.  Too large a magnitude rounds to
    an infinity, too small a one to a signed zero. *)
Definition of_decimal (neg : bool) (m e : Z) : spec_float :=
  match m with
  | Zpos p =>
      if (0 <=? e)%Z
      then binary_round prec emax neg (Z.to_pos (Zpos p * 10 ^ e)) 0
      else let '(q, e', l) :=
             SFdiv_core_binary prec emax (Zpos p) 0 (10 ^ (- e)) 0 in
           binary_round_aux prec emax neg q e' l
  | _ => S754_zero neg
  end.

Definition MAX_DIGITS : N := 1000000000.

Fixpoint skip_zeros (ds : list N) : list N :=
  match ds with
  | 0 :: r => skip_zeros r
  | _ => ds
  end.

(** The fraction: a decimal point followed by digits, when there is a
    point. *)
Definition scan_fraction (s : list N) : list N * list N :=
  match s with
  | c :: r => if c =? chr "." then scan_digits r else ([], s)
  | [] => ([], s)
  end.

(** The exponent: [e] or [E], an optional sign and at least one digit;
    without a digit nothing is consumed. *)
Definition scan_exponent (s : list N) : Z * list N :=
  match s with
  | c :: r =>
      if (c =? chr "e") || (c =? chr "E") then
        let '(esign, r1) := scan_sign r in
        let '(ds, r2) := scan_digits r1 in
        match ds with
        | [] => (0%Z, s)
        | _ => let a := Z.of_N (digits_value ds) in
               ((if esign then - a else a)%Z, r2)
        end
      else (0%Z, s)
  | [] => (0%Z, s)
  end.

(** [_Py_dg_strtod]: sign, digits with an optional point, optional
    exponent.  [None] is a parse error (nothing consumed); otherwise
    the value and the unread rest.  The C function clamps exponents
    beyond 1.1e9, which cannot change the rounded value of a string of
    at most [MAX_DIGITS] digits. *)
Definition _Py_dg_strtod (s : list N) : option (spec_float * list N) :=
  let '(sign, s1) := scan_sign s in
  let '(int_digits, s2) := scan_digits s1 in
  let '(frac_digits, s3) := scan_fraction s2 in
  let digits := int_digits ++ frac_digits in
  let ndigits := N.of_nat (length (skip_zeros digits)) in
  let fraclen := N.of_nat (length frac_digits) in
  match digits with
  | [] => None
  | _ =>
      if (MAX_DIGITS <? ndigits) || (MAX_DIGITS <? fraclen) then None
      else
        let '(e, rest) := scan_exponent s3 in
        Some (of_decimal sign (Z.of_N (digits_value digits)) (e - Z.of_N fraclen),
              rest)
  end.

(** [case_insensitive_match]: drop the prefix [t] of [s], compared
    through [Py_TOLOWER]. *)
Fixpoint case_insensitive_match (s t : list N) : option (list N) :=
  match t with
  | [] => Some s
  | b :: t' =>
      match s with
      | c :: s' => if Py_TOLOWER c =? b then case_insensitive_match s' t' else None
      | [] => None
      end
  end.

(** [_Py_parse_inf_or_nan] *)
Definition _Py_parse_inf_or_nan (s : list N) : option (spec_float * list N) :=
  let '(negate, s1) := scan_sign s in
  match case_insensitive_match s1 (lit "inf") with
  | Some r =>
      match case_insensitive_match r (lit "inity") with
      | Some r' => Some (S754_infinity negate, r')
      | None => Some (S754_infinity negate, r)
      end
  | None =>
      match case_insensitive_match s1 (lit "nan") with
      | Some r => Some (S754_nan, r)
      | None => None
      end
  end.

(** [_PyOS_ascii_strtod]: a number, or else an infinity or a NaN. *)
Definition _PyOS_ascii_strtod (s : list N) : option (spec_float * list N) :=
  match _Py_dg_strtod s with
  | Some r => Some r
  | None => _Py_parse_inf_or_nan s
  end.

(** [_Py_string_to_number_with_underscores]: an underscore must stand
    between two digits; [prev] is the previous character.  [None] is
    the [ValueError]. *)
Fixpoint remove_underscores (prev : N) (s : list N) : option (list N) :=
  match s with
  | [] => if prev =? chr "_" then None else Some []
  | c :: r =>
      if c =? 0 then None
      else if c =? chr "_" then
        if Py_ISDIGIT prev then remove_underscores c r else None
      else if (prev =? chr "_") && negb (Py_ISDIGIT c) then None
      else cons c <$> remove_underscores c r
  end.

Definition string_to_number_with_underscores (s : list N) : option (list N) :=
  if existsb (N.eqb (chr "_")) s then remove_underscores 0 s else Some s.

(** [float_from_string_inner]: strip ASCII whitespace on both sides, and
    the number must be the whole of what is left. *)
Definition float_from_string_inner (s : list N) : option spec_float :=
  let s' := rev (skip_spaces (rev (skip_spaces s))) in
  match _PyOS_ascii_strtod s' with
  | Some (x, []) => Some x
  | _ => None
  end.

(** [PyFloat_FromString] on a [str]; [None] is the [ValueError]. *)
Definition from_string `{PythonRuntime} (s : list N) : option spec_float :=
  string_to_number_with_underscores (str.TransformDecimalAndSpaceToASCII s)
    ≫= float_from_string_inner.

End float.

(** ** [int(s)] *)

Module int.

Definition _PY_LONG_MAX_STR_DIGITS_THRESHOLD : N := 640.

(** The digit scan of [long_from_non_binary_base]: digits and single
    underscores between them.  Returns the digit values and the rest;
    [None] when two underscores meet or the run ends in one. *)
Fixpoint scan_long_digits (prev : N) (s : list N) : option (list N * list N) :=
  match s with
  | c :: r =>
      if c =? chr "_" then
        if prev =? chr "_" then None else scan_long_digits c r
      else if Py_ISDIGIT c then
        '(ds, rest) ← scan_long_digits c r; Some ((c - chr "0") :: ds, rest)
      else if prev =? chr "_" then None else Some ([], s)
  | [] => if prev =? chr "_" then None else Some ([], [])
  end.

(** [PyLong_FromString] in base 10; [None] is the [ValueError]. *)
Definition PyLong_FromString `{PythonRuntime} (s : list N) : option Z :=
  let '(negative, s1) := scan_sign (skip_spaces s) in
  match s1 with
  | c :: _ => if c =? chr "_" then None else Some tt
  | [] => Some tt
  end ≫= λ _,
  '(ds, rest) ← scan_long_digits 0 s1;
  let digits := N.of_nat (length ds) in
  if (_PY_LONG_MAX_STR_DIGITS_THRESHOLD <? digits)
     && (0 <? int_max_str_digits) && (int_max_str_digits <? digits)
  then None
  else
    match ds, skip_spaces rest with
    | _ :: _, [] =>
        let a := Z.of_N (digits_value ds) in
        Some (if negative then - a else a)%Z
    | _, _ => None
    end.

(** [PyLong_FromUnicodeObject] *)
Definition from_string `{PythonRuntime} (s : list N) : option Z :=
  PyLong_FromString (str.TransformDecimalAndSpaceToASCII s).

End int.

(** ** Exceptions and logging

    A computation takes the log written so far and either returns a
    value or raises, together with the extended log. *)

(** [ValueError] is what [float], [int] and the two [raise] statements
    raise; [TypeError] stands for the other exception classes, which an
    [except ValueError] clause lets through. *)
Inductive exception := ValueError | TypeError.

#[global] Instance exception_eq_dec : EqDecision exception.
Proof. solve_decision. Defined.

Record LogRecord := {
  levelname : string;
  msg : string;
  args : list (list N)
}.

Inductive outcome (A : Type) :=
  | Returns (a : A)
  | Raises (e : exception).
Arguments Returns {A} a.
Arguments Raises {A} e.

Definition py (A : Type) : Type := list LogRecord -> outcome A * list LogRecord.

#[global] Instance py_ret : MRet py := λ A a log, (Returns a, log).

#[global] Instance py_bind : MBind py := λ A B f m log,
  match m log with
  | (Returns a, log') => f a log'
  | (Raises e, log') => (Raises e, log')
  end.

(** [raise cls] *)
Definition raise {A} (e : exception) : py A := λ log, (Raises e, log).

(** [try: body / except cls: handler] *)
Definition try_except {A} (body : py A) (cls : exception) (handler : py A) : py A :=
  λ log,
    match body log with
    | (Raises e, log') =>
        if decide (e = cls) then handler log' else (Raises e, log')
    | r => r
    end.

Module logger.
(** [logger.warning(msg, *args)] appends a record to the log. *)
Definition warning (msg : string) (args : list (list N)) : py unit :=
  λ log, (Returns tt, log ++ [ {| levelname := "WARNING"; msg := msg; args := args |} ]).
End logger.

Module builtins.
(** [float(s)] and [int(s)] on a [str]: the value, or [ValueError]. *)
Definition float `{PythonRuntime} (s : list N) : py spec_float :=
  match float.from_string s with
  | Some x => mret x
  | None => raise ValueError
  end.

Definition int `{PythonRuntime} (s : list N) : py Z :=
  match int.from_string s with
  | Some n => mret n
  | None => raise ValueError
  end.
End builtins.

(** The float literal [2.0] of the source. *)
Definition float_2_0 : spec_float :=
  Eval vm_compute in float.of_decimal false 20 (-1).

(** The float that the int [0] is compared as. *)
Definition float_0 : spec_float := S754_zero false.

(** [x <= 0] and [0 < x] on floats: both are false on a NaN. *)
Definition float_le_0 (x : spec_float) : bool := SFleb x float_0.
Definition float_gt_0 (x : spec_float) : bool := SFltb float_0 x.

(** ** The process environment *)

Module os.
(** [os.getenv(key)]: [None] when the variable is unset. *)
Definition getenv (environ : gmap string (list N)) (key : string) : option (list N) :=
  environ !! key.

(** [os.getenv(key, default)] *)
Definition getenv_or (environ : gmap string (list N)) (key : string)
    (default : list N) : list N :=
  match environ !! key with
  | Some value => value
  | None => default
  end.
End os.

(** ** The source file *)

Record WebhookConfig := {
  enabled : bool;
  url : list N;
  timeout_sec : spec_float;
  mode : list N;
  sample_every : Z;
  include_metrics : bool
}.

(** The dataclass defaults. *)
Definition WebhookConfig_default : WebhookConfig := {|
  enabled := false;
  url := lit "";
  timeout_sec := float_2_0;
  mode := lit "both";
  sample_every := 1;
  include_metrics := true
|}.

Section Loader.
Context `{PythonRuntime}.

Definition _env_bool (environ : gmap string (list N)) (name : string)
    (default : bool) : bool :=
  match os.getenv environ name with
  | None => default
  | Some value =>
      bool_decide (str.lower (str.strip value)
                     ∈ [lit "1"; lit "true"; lit "yes"; lit "on"])
  end.

(** [a or b] on strings: [b] when [a] is empty. *)
Definition str_or (a b : list N) : list N :=
  match a with
  | [] => b
  | _ => a
  end.

Definition load_webhook_config (environ : gmap string (list N)) : py WebhookConfig :=
  let enabled := _env_bool environ "LIVE_VLM_WEBHOOK_ENABLED" false in
  let url := str.strip (os.getenv_or environ "LIVE_VLM_WEBHOOK_URL" (lit "")) in
  let timeout_raw := os.getenv_or environ "LIVE_VLM_WEBHOOK_TIMEOUT_SEC" (lit "2.0") in
  let mode :=
    str_or (str.lower (str.strip (os.getenv_or environ "LIVE_VLM_WEBHOOK_MODE" (lit "both"))))
           (lit "both") in
  let sample_raw := os.getenv_or environ "LIVE_VLM_WEBHOOK_SAMPLE_EVERY" (lit "1") in
  let include_metrics := _env_bool environ "LIVE_VLM_WEBHOOK_INCLUDE_METRICS" true in
  timeout_sec ←
    try_except
      (timeout_sec ← builtins.float timeout_raw;
       if float_le_0 timeout_sec then raise ValueError else mret timeout_sec)
      ValueError
      (logger.warning "Invalid LIVE_VLM_WEBHOOK_TIMEOUT_SEC=%s, using default 2.0"
                      [timeout_raw];;
       mret float_2_0);
  sample_every ←
    try_except
      (sample_every ← builtins.int sample_raw;
       if (sample_every <? 1)%Z then raise ValueError else mret sample_every)
      ValueError
      (logger.warning "Invalid LIVE_VLM_WEBHOOK_SAMPLE_EVERY=%s, using default 1"
                      [sample_raw];;
       mret 1%Z);
  mode ←
    (if negb (bool_decide (mode ∈ [lit "single"; lit "multi"; lit "both"]))
     then logger.warning "Invalid LIVE_VLM_WEBHOOK_MODE=%s, using default 'both'" [mode];;
          mret (lit "both")
     else mret mode);
  enabled ←
    (if enabled && bool_decide (url = [])
     then logger.warning
            "LIVE_VLM_WEBHOOK_ENABLED is true but LIVE_VLM_WEBHOOK_URL is empty" [];;
          mret false
     else mret enabled);
  mret {| enabled := enabled;
          url := url;
          timeout_sec := timeout_sec;
          mode := mode;
          sample_every := sample_every;
          include_metrics := include_metrics |}.

End Loader.

(** ** A runtime to run examples with

    A fragment of the Unicode database: all of its whitespace outside
    ASCII, four of its blocks of decimal digits, and the lowercase
    mappings of Latin-1, of the dotted capital I and of the Kelvin sign.
    The integer string limit is CPython's default. *)

Definition in_range (lo hi c : N) : bool := (lo <=? c) && (c <=? hi).

Definition digit_of_N (n : N) : option decimal_digit :=
  match n with
  | 0 => Some D0 | 1 => Some D1 | 2 => Some D2 | 3 => Some D3 | 4 => Some D4
  | 5 => Some D5 | 6 => Some D6 | 7 => Some D7 | 8 => Some D8 | 9 => Some D9
  | _ => None
  end.

Definition sample_isspace (c : N) : bool :=
  (c =? 0x85) || (c =? 0xA0) || (c =? 0x1680) || in_range 0x2000 0x200A c
  || (c =? 0x2028) || (c =? 0x2029) || (c =? 0x202F) || (c =? 0x205F)
  || (c =? 0x3000).

Definition sample_todecimal (c : N) : option decimal_digit :=
  if in_range 0x660 0x669 c then digit_of_N (c - 0x660)
  else if in_range 0x6F0 0x6F9 c then digit_of_N (c - 0x6F0)
  else if in_range 0x966 0x96F c then digit_of_N (c - 0x966)
  else if in_range 0xFF10 0xFF19 c then digit_of_N (c - 0xFF10)
  else None.

Definition sample_tolower (before : list N) (c : N) (after : list N) : lower_mapping :=
  if in_range 0xC0 0xDE c && negb (c =? 0xD7) then Lower1 (c + 32)
  else if c =? 0x130 then Lower2 0x69 0x307
  else if c =? 0x212A then Lower1 0x6B
  else Lower1 c.

Definition sample_runtime : PythonRuntime := {|
  unicode_isspace := sample_isspace;
  unicode_todecimal := sample_todecimal;
  unicode_tolower := sample_tolower;
  int_max_str_digits := 4300
|}.

(** The variables the loader reads. *)
Definition consumed_variables : list string :=
  [ "LIVE_VLM_WEBHOOK_ENABLED"; "LIVE_VLM_WEBHOOK_URL";
    "LIVE_VLM_WEBHOOK_TIMEOUT_SEC"; "LIVE_VLM_WEBHOOK_MODE";
    "LIVE_VLM_WEBHOOK_SAMPLE_EVERY"; "LIVE_VLM_WEBHOOK_INCLUDE_METRICS" ].

(** ** Character classes of the number parsers *)

(** What [float_from_string_inner] parses: its argument without the ASCII
    whitespace on both sides. *)
Definition ascii_trim (s : list N) : list N := rev (skip_spaces (rev (skip_spaces s))).

(** After whitespace and an optional sign, the string is nan in some
    letter case. *)
Definition spells_nan (s : list N) : Prop :=
  map Py_TOLOWER (snd (scan_sign (ascii_trim s))) = lit "nan".

(** The ASCII characters an [int] literal is made of. *)
Definition int_literal_char (c : N) : bool :=
  Py_ISSPACE c || Py_ISDIGIT c || (c =? chr "_") || (c =? chr "+") || (c =? chr "-").

(** The ASCII characters a [float] literal is made of: those of an [int]
    literal, the point, and the letters of e, inf, infinity and nan in
    either case. *)
Definition float_literal_char (c : N) : bool :=
  Py_ISSPACE c || Py_ISDIGIT c
  || bool_decide (Py_TOLOWER c ∈ lit "_+-.einftya").

(** * Properties of the loader *)

(** ** What a call computes

    The fields and warnings of a call, written as plain functions of the
    environment; [load_webhook_config_run] shows that the loader returns
    exactly these. *)

Section Run.
Context `{PythonRuntime}.
Implicit Types (environ : gmap string (list N)) (raw : list N).

Definition truthy : list (list N) := [lit "1"; lit "true"; lit "yes"; lit "on"].
Definition modes : list (list N) := [lit "single"; lit "multi"; lit "both"].

Definition timeout_raw environ : list N :=
  os.getenv_or environ "LIVE_VLM_WEBHOOK_TIMEOUT_SEC" (lit "2.0").
Definition sample_raw environ : list N :=
  os.getenv_or environ "LIVE_VLM_WEBHOOK_SAMPLE_EVERY" (lit "1").
Definition mode_raw environ : list N :=
  os.getenv_or environ "LIVE_VLM_WEBHOOK_MODE" (lit "both").
Definition url_raw environ : list N :=
  os.getenv_or environ "LIVE_VLM_WEBHOOK_URL" (lit "").

(** The timeout the first [try] block keeps: parsed and not [<= 0]. *)
Definition accepted_timeout raw : option spec_float :=
  x ← float.from_string raw; if float_le_0 x then None else Some x.

(** The period the second [try] block keeps: parsed and not [< 1]. *)
Definition accepted_sample raw : option Z :=
  n ← int.from_string raw; if (n <? 1)%Z then None else Some n.

Definition lowered_mode environ : list N :=
  str_or (str.lower (str.strip (mode_raw environ))) (lit "both").

Definition warning_record (msg : string) (args : list (list N)) : LogRecord :=
  {| levelname := "WARNING"; msg := msg; args := args |}.

Definition timeout_warning raw : LogRecord :=
  warning_record "Invalid LIVE_VLM_WEBHOOK_TIMEOUT_SEC=%s, using default 2.0" [raw].
Definition sample_warning raw : LogRecord :=
  warning_record "Invalid LIVE_VLM_WEBHOOK_SAMPLE_EVERY=%s, using default 1" [raw].
Definition mode_warning (m : list N) : LogRecord :=
  warning_record "Invalid LIVE_VLM_WEBHOOK_MODE=%s, using default 'both'" [m].
Definition url_warning : LogRecord :=
  warning_record "LIVE_VLM_WEBHOOK_ENABLED is true but LIVE_VLM_WEBHOOK_URL is empty" [].

Definition enabled_without_url environ : bool :=
  _env_bool environ "LIVE_VLM_WEBHOOK_ENABLED" false
  && bool_decide (str.strip (url_raw environ) = []).

Definition loaded environ : WebhookConfig := {|
  enabled :=
    if enabled_without_url environ then false
    else _env_bool environ "LIVE_VLM_WEBHOOK_ENABLED" false;
  url := str.strip (url_raw environ);
  timeout_sec := default float_2_0 (accepted_timeout (timeout_raw environ));
  mode :=
    if bool_decide (lowered_mode environ ∈ modes) then lowered_mode environ
    else lit "both";
  sample_every := default 1%Z (accepted_sample (sample_raw environ));
  include_metrics := _env_bool environ "LIVE_VLM_WEBHOOK_INCLUDE_METRICS" true
|}.

Definition warnings environ : list LogRecord :=
  (if accepted_timeout (timeout_raw environ) is Some _ then []
   else [timeout_warning (timeout_raw environ)])
  ++ (if accepted_sample (sample_raw environ) is Some _ then []
      else [sample_warning (sample_raw environ)])
  ++ (if bool_decide (lowered_mode environ ∈ modes) then []
      else [mode_warning (lowered_mode environ)])
  ++ (if enabled_without_url environ then [url_warning] else []).

(** A call returns [cfg] after logging [ws], whatever was logged before. *)
Definition loads environ (cfg : WebhookConfig) (ws : list LogRecord) : Prop :=
  ∀ log, load_webhook_config environ log = (Returns cfg, log ++ ws).

Lemma load_webhook_config_run environ : loads environ (loaded environ) (warnings environ).
Proof.
  intros log.
  unfold load_webhook_config, loaded, warnings, accepted_timeout, accepted_sample,
    enabled_without_url, lowered_mode, timeout_raw, sample_raw, mode_raw, url_raw.
  unfold try_except, builtins.float, builtins.int, raise, logger.warning, modes.
  unfold mbind, py_bind, mret, py_ret, option_bind.
  destruct (float.from_string _) as [x|]; cbn beta iota;
    [destruct (float_le_0 x)|];
    (destruct (int.from_string _) as [n|]; cbn beta iota;
     [destruct (n <? 1)%Z|]);
    destruct (bool_decide (_ ∈ _));
    destruct (_env_bool environ "LIVE_VLM_WEBHOOK_ENABLED" false);
    destruct (bool_decide (_ = []));
    (destruct (decide (ValueError = ValueError)); [|congruence]);
    cbn -[lit]; rewrite ?app_nil_r, <- ?app_assoc; reflexivity.
Qed.
End Run.

(** ** Strings *)

Section StringFacts.
Context `{PythonRuntime}.
Implicit Types (s : list N).

Lemma lstrip_whitespace s :
  Forall (λ c, str.isspace c = true) s -> str.lstrip s = [].
Proof.
  induction 1 as [|c s Hc _ IH]; simpl; [reflexivity|].
  rewrite Hc. exact IH.
Qed.

(** A string of whitespace only, the empty one included, strips to the
    empty string. *)
Lemma strip_whitespace s :
  Forall (λ c, str.isspace c = true) s -> str.strip s = [].
Proof.
  intros Hs. unfold str.strip, str.rstrip.
  rewrite (lstrip_whitespace s Hs). reflexivity.
Qed.

Lemma lower_char_nonempty before c after : str.lower_char before c after ≠ [].
Proof.
  unfold str.lower_char. destruct (c <? 128); [discriminate|].
  destruct (unicode_tolower before c after); discriminate.
Qed.

(** Lowercasing never empties a string. *)
Lemma lower_nil_inv s : str.lower s = [] -> s = [].
Proof.
  unfold str.lower. destruct s as [|c r]; [reflexivity|].
  intros Hlow. simpl in Hlow.
  apply app_eq_nil in Hlow as [Hc _].
  destruct (lower_char_nonempty _ _ _ Hc).
Qed.

Lemma lower_nil : str.lower [] = [].
Proof. reflexivity. Qed.
End StringFacts.

(** ** Floats *)

(** A float that is not [<= 0] is a NaN or is [> 0]. *)
Lemma float_not_le_0 (x : spec_float) :
  float_le_0 x = false -> x = S754_nan ∨ float_gt_0 x = true.
Proof.
  unfold float_le_0, float_gt_0, float_0, SFleb, SFltb.
  destruct x as [s|s| |s m e]; try destruct s; simpl; intros Hx;
    solve [discriminate Hx | left; reflexivity | right; reflexivity].
Qed.

Lemma float_gt_0_not_le_0 (x : spec_float) :
  float_gt_0 x = true -> float_le_0 x = false.
Proof.
  unfold float_le_0, float_gt_0, float_0, SFleb, SFltb.
  destruct x as [s|s| |s m e]; try destruct s; simpl; intros Hx;
    solve [discriminate Hx | reflexivity].
Qed.

Lemma float_2_0_positive : float_gt_0 float_2_0 = true.
Proof. reflexivity. Qed.

(** [float_2_0] is the number two: [2^52 * 2^-51]. *)
Lemma float_2_0_value :
  float_2_0 = S754_finite false (2 ^ 52) (-51)
  ∧ valid_binary float.prec float.emax float_2_0 = true.
Proof. split; reflexivity. Qed.

(** ** The warnings of a call *)

Ltac unfold_warnings :=
  unfold warnings, timeout_warning, sample_warning, mode_warning, url_warning,
    warning_record;
  rewrite !elem_of_app.

Ltac solve_warning :=
  rewrite ?elem_of_nil, ?list_elem_of_singleton;
  split; intros; destruct_or?; destruct_and?; simplify_eq;
  try contradiction; auto.

Section Warnings.
Context `{PythonRuntime}.
Implicit Types (environ : gmap string (list N)) (raw : list N).

Lemma timeout_warning_logged environ raw :
  timeout_warning raw ∈ warnings environ
  ↔ accepted_timeout (timeout_raw environ) = None ∧ raw = timeout_raw environ.
Proof.
  unfold_warnings.
  destruct (accepted_timeout _), (accepted_sample _), (bool_decide _),
    (enabled_without_url _);
    solve_warning.
Qed.

Lemma sample_warning_logged environ raw :
  sample_warning raw ∈ warnings environ
  ↔ accepted_sample (sample_raw environ) = None ∧ raw = sample_raw environ.
Proof.
  unfold_warnings.
  destruct (accepted_timeout _), (accepted_sample _), (bool_decide _),
    (enabled_without_url _);
    solve_warning.
Qed.

Lemma mode_warning_logged environ (m : list N) :
  mode_warning m ∈ warnings environ
  ↔ (lowered_mode environ ∉ modes) ∧ m = lowered_mode environ.
Proof.
  unfold_warnings.
  destruct (accepted_timeout _), (accepted_sample _),
    (bool_decide_reflect (lowered_mode environ ∈ modes)),
    (enabled_without_url _);
    solve_warning.
Qed.

Lemma url_warning_logged environ :
  url_warning ∈ warnings environ ↔ enabled_without_url environ = true.
Proof.
  unfold_warnings.
  destruct (accepted_timeout _), (accepted_sample _), (bool_decide _),
    (enabled_without_url _);
    solve_warning.
Qed.
End Warnings.

(** ** The claims *)

(** Membership in a list of literals, decided by evaluation. *)
Ltac elem_of_compute :=
  apply (bool_decide_unpack _); vm_compute; exact I.

Ltac not_elem_of_compute :=
  apply (bool_decide_eq_false_1 _); vm_compute; reflexivity.

Lemma both_in_modes : lit "both" ∈ modes.
Proof. elem_of_compute. Qed.

Lemma nil_not_in_modes : [] ∉ modes.
Proof. not_elem_of_compute. Qed.

Ltac by_run environ :=
  exists (loaded environ), (warnings environ);
  split; [apply load_webhook_config_run|].

Section Claims.
Context `{PythonRuntime}.
Implicit Types (environ : gmap string (list N)).

(** C1. Every returned configuration that is enabled has a non-empty
    url: when the flag read from LIVE_VLM_WEBHOOK_ENABLED is true and
    the stripped LIVE_VLM_WEBHOOK_URL is empty, the loader logs its
    warning and returns [enabled = false], in every environment. *)
Theorem enabled_implies_url environ :
  ∃ cfg ws, loads environ cfg ws
    ∧ (enabled cfg = true -> url cfg ≠ [])
    ∧ (_env_bool environ "LIVE_VLM_WEBHOOK_ENABLED" false = true ->
       str.strip (url_raw environ) = [] ->
       enabled cfg = false ∧ url_warning ∈ ws).
Proof.
  by_run environ. split.
  - unfold loaded, enabled_without_url; cbn [enabled url].
    destruct (_env_bool environ "LIVE_VLM_WEBHOOK_ENABLED" false);
      destruct (bool_decide_reflect (str.strip (url_raw environ) = []));
      cbn; congruence.
  - intros Hflag Hurl. rewrite url_warning_logged.
    unfold loaded, enabled_without_url; cbn [enabled].
    rewrite Hflag, (bool_decide_true _ Hurl). split; reflexivity.
Qed.

(** What the first [try] block guarantees: the timeout is 2.0 with a
    warning, or the parsed value, which is then not [<= 0]; so it is
    greater than 0 or a NaN. *)
Lemma timeout_sec_resolution environ :
  ∃ cfg ws, loads environ cfg ws
    ∧ match float.from_string (timeout_raw environ) with
      | Some x =>
          if float_le_0 x
          then timeout_sec cfg = float_2_0 ∧ timeout_warning (timeout_raw environ) ∈ ws
          else timeout_sec cfg = x ∧ ∀ raw, timeout_warning raw ∉ ws
      | None =>
          timeout_sec cfg = float_2_0 ∧ timeout_warning (timeout_raw environ) ∈ ws
      end
    ∧ (timeout_sec cfg = S754_nan ∨ float_gt_0 (timeout_sec cfg) = true).
Proof.
  by_run environ. unfold loaded; cbn [timeout_sec].
  pose proof (timeout_warning_logged environ) as Hlogged.
  unfold accepted_timeout in *.
  destruct (float.from_string (timeout_raw environ)) as [x|]; cbn in *.
  - destruct (float_le_0 x) eqn:Hx; cbn in *.
    + split; [|right; reflexivity]. split; [reflexivity|].
      apply Hlogged. split; reflexivity.
    + split; [|exact (float_not_le_0 x Hx)]. split; [reflexivity|].
      intros raw [Hnone _]%Hlogged. discriminate Hnone.
  - split; [|right; reflexivity]. split; [reflexivity|].
    apply Hlogged. split; reflexivity.
Qed.

(** C2, at the input where it fails.  The values "0", "-1" and "abc" of
    LIVE_VLM_WEBHOOK_TIMEOUT_SEC give 2.0 with a warning and "5.5" gives
    5.5, but "nan" parses to a NaN, which is not [<= 0]: it is returned
    as the timeout, without a warning, and it is not greater than 0. *)
Theorem timeout_sec_nan_escapes_check environ :
  Forall (λ raw,
      ∃ cfg ws, loads (<["LIVE_VLM_WEBHOOK_TIMEOUT_SEC" := raw]> environ) cfg ws
        ∧ timeout_sec cfg = float_2_0 ∧ timeout_warning raw ∈ ws)
    [lit "0"; lit "-1"; lit "abc"]
  ∧ (∃ cfg ws, loads (<["LIVE_VLM_WEBHOOK_TIMEOUT_SEC" := lit "5.5"]> environ) cfg ws
       ∧ timeout_sec cfg = S754_finite false (11 * 2 ^ 49) (-50)
       ∧ ∀ raw, timeout_warning raw ∉ ws)
  ∧ (∃ cfg ws, loads (<["LIVE_VLM_WEBHOOK_TIMEOUT_SEC" := lit "nan"]> environ) cfg ws
       ∧ timeout_sec cfg = S754_nan
       ∧ float_gt_0 (timeout_sec cfg) = false
       ∧ ∀ raw, timeout_warning raw ∉ ws).
Proof.
  split; [|split].
  - repeat constructor;
      match goal with |- ∃ _ _, loads ?e _ _ ∧ _ => by_run e end;
      rewrite timeout_warning_logged;
      unfold loaded, timeout_raw, os.getenv_or; cbn [timeout_sec];
      rewrite lookup_insert_eq; repeat split; reflexivity.
  - match goal with |- ∃ _ _, loads ?e _ _ ∧ _ => by_run e end.
    split.
    + unfold loaded, timeout_raw, os.getenv_or; cbn [timeout_sec].
      rewrite lookup_insert_eq. reflexivity.
    + intros raw. rewrite timeout_warning_logged.
      unfold timeout_raw, os.getenv_or. rewrite lookup_insert_eq.
      intros [Hnone _]. vm_compute in Hnone. discriminate Hnone.
  - match goal with |- ∃ _ _, loads ?e _ _ ∧ _ => by_run e end.
    assert (Hnan : timeout_sec
              (loaded (<["LIVE_VLM_WEBHOOK_TIMEOUT_SEC" := lit "nan"]> environ))
            = S754_nan).
    { unfold loaded, timeout_raw, os.getenv_or; cbn [timeout_sec].
      rewrite lookup_insert_eq. reflexivity. }
    rewrite Hnan. repeat split.
    intros raw. rewrite timeout_warning_logged.
    unfold timeout_raw, os.getenv_or. rewrite lookup_insert_eq.
    intros [Hnone _]. vm_compute in Hnone. discriminate Hnone.
Qed.


(** C4. When none of the six variables is set, the loader returns the
    default record: disabled, empty url, timeout 2.0, mode "both",
    period 1, metrics included; and it logs nothing. *)
Theorem load_webhook_config_defaults environ :
  (∀ name, name ∈ consumed_variables -> environ !! name = None) ->
  ∀ log, load_webhook_config environ log
         = (Returns {| enabled := false;
                       url := lit "";
                       timeout_sec := float_2_0;
                       mode := lit "both";
                       sample_every := 1;
                       include_metrics := true |}, log).
Proof.
  intros Hunset log.
  rewrite (load_webhook_config_run environ log).
  unfold loaded, warnings, enabled_without_url, lowered_mode, _env_bool,
    timeout_raw, sample_raw, mode_raw, url_raw, os.getenv, os.getenv_or.
  rewrite !Hunset by elem_of_compute.
  vm_compute (accepted_timeout _). vm_compute (accepted_sample _).
  cbn. rewrite app_nil_r. reflexivity.
Qed.

(** C5. Boolean parsing: a set variable is true exactly when its
    stripped, lowercased value is one of "1", "true", "yes", "on" (so
    "TRUE" and "On" are true) and false otherwise; an unset variable
    takes the default, which the loader gives as false for the enabled
    flag and true for include_metrics. *)
Theorem env_bool_truthy environ name default v :
  (_env_bool (<[name := v]> environ) name default = true
     ↔ str.lower (str.strip v) ∈ truthy)
  ∧ (_env_bool (<[name := v]> environ) name default = false
     ↔ str.lower (str.strip v) ∉ truthy)
  ∧ _env_bool (delete name environ) name default = default
  ∧ _env_bool (<[name := lit "TRUE"]> environ) name default = true
  ∧ _env_bool (<[name := lit "On"]> environ) name default = true
  ∧ (∃ cfg ws, loads environ cfg ws
       ∧ include_metrics cfg
         = match environ !! "LIVE_VLM_WEBHOOK_INCLUDE_METRICS" with
           | Some value => bool_decide (str.lower (str.strip value) ∈ truthy)
           | None => true
           end
       ∧ (_env_bool environ "LIVE_VLM_WEBHOOK_ENABLED" false
          = match environ !! "LIVE_VLM_WEBHOOK_ENABLED" with
            | Some value => bool_decide (str.lower (str.strip value) ∈ truthy)
            | None => false
            end)
       ∧ enabled cfg
         = _env_bool environ "LIVE_VLM_WEBHOOK_ENABLED" false
           && negb (bool_decide (url cfg = []))).
Proof.
  unfold _env_bool, os.getenv.
  rewrite !lookup_insert_eq, lookup_delete_eq.
  fold truthy. rewrite bool_decide_eq_true, bool_decide_eq_false.
  repeat split; try tauto.
  by_run environ. unfold loaded, enabled_without_url, _env_bool, os.getenv.
  cbn [include_metrics enabled url]. fold truthy.
  repeat split.
  destruct (environ !! "LIVE_VLM_WEBHOOK_ENABLED") as [value|]; [|reflexivity].
  destruct (bool_decide (str.lower (str.strip value) ∈ truthy));
    destruct (bool_decide (str.strip (url_raw environ) = [])); reflexivity.
Qed.

(** C6. The returned mode is always one of "single", "multi", "both".
    The value of LIVE_VLM_WEBHOOK_MODE is stripped and lowercased; when
    nothing is left after stripping the mode is "both" without a
    warning; a value in the set is kept; any other value gives "both"
    and a warning.  "SINGLE" gives "single" and "bogus" gives "both"
    with a warning. *)
Theorem mode_resolution environ :
  (∃ cfg ws, loads environ cfg ws
     ∧ mode cfg ∈ [lit "single"; lit "multi"; lit "both"]
     ∧ (str.strip (mode_raw environ) = [] ->
        mode cfg = lit "both" ∧ ∀ m, mode_warning m ∉ ws)
     ∧ (str.lower (str.strip (mode_raw environ)) ∈ modes ->
        mode cfg = str.lower (str.strip (mode_raw environ))
        ∧ ∀ m, mode_warning m ∉ ws)
     ∧ (str.strip (mode_raw environ) ≠ [] ->
        str.lower (str.strip (mode_raw environ)) ∉ modes ->
        mode cfg = lit "both"
        ∧ mode_warning (str.lower (str.strip (mode_raw environ))) ∈ ws))
  ∧ (∃ cfg ws, loads (<["LIVE_VLM_WEBHOOK_MODE" := lit "SINGLE"]> environ) cfg ws
       ∧ mode cfg = lit "single" ∧ ∀ m, mode_warning m ∉ ws)
  ∧ (∃ cfg ws, loads (<["LIVE_VLM_WEBHOOK_MODE" := lit "bogus"]> environ) cfg ws
       ∧ mode cfg = lit "both" ∧ mode_warning (lit "bogus") ∈ ws).
Proof.
  pose proof both_in_modes as Hboth.
  split; [|split].
  - by_run environ. unfold loaded; cbn [mode]. fold modes.
    split; [|split; [|split]].
    + destruct (bool_decide_reflect (lowered_mode environ ∈ modes)); assumption.
    + intros Hempty.
      assert (Hl : lowered_mode environ = lit "both")
        by (unfold lowered_mode; rewrite Hempty; reflexivity).
      rewrite Hl, (bool_decide_true _ Hboth). split; [reflexivity|].
      intros m. rewrite mode_warning_logged, Hl. tauto.
    + intros Hin.
      assert (Hl : lowered_mode environ = str.lower (str.strip (mode_raw environ))).
      { unfold lowered_mode. destruct (str.lower _) as [|c r];
          [destruct (nil_not_in_modes Hin) | reflexivity]. }
      rewrite Hl, (bool_decide_true _ Hin). split; [reflexivity|].
      intros m. rewrite mode_warning_logged, Hl. tauto.
    + intros Hstripped Hnotin.
      assert (Hl : lowered_mode environ = str.lower (str.strip (mode_raw environ))).
      { unfold lowered_mode. destruct (str.lower _) as [|c r] eqn:Hlow;
          [apply lower_nil_inv in Hlow; contradiction | reflexivity]. }
      rewrite Hl, (bool_decide_false _ Hnotin). split; [reflexivity|].
      rewrite mode_warning_logged, Hl. split; [assumption|reflexivity].
  - match goal with |- ∃ _ _, loads ?e _ _ ∧ _ => by_run e end.
    split.
    + unfold loaded, lowered_mode, mode_raw, os.getenv_or; cbn [mode].
      rewrite lookup_insert_eq. reflexivity.
    + intros m. rewrite mode_warning_logged.
      unfold lowered_mode, mode_raw, os.getenv_or. rewrite lookup_insert_eq.
      intros [Hnot _]. apply Hnot. elem_of_compute.
  - match goal with |- ∃ _ _, loads ?e _ _ ∧ _ => by_run e end.
    split.
    + unfold loaded, lowered_mode, mode_raw, os.getenv_or; cbn [mode].
      rewrite lookup_insert_eq. reflexivity.
    + rewrite mode_warning_logged.
      unfold lowered_mode, mode_raw, os.getenv_or. rewrite lookup_insert_eq.
      split; [|reflexivity]. not_elem_of_compute.
Qed.

(** C7. The returned period is always an integer of at least 1.  The
    value of LIVE_VLM_WEBHOOK_SAMPLE_EVERY is parsed as an integer; when
    that fails or gives less than 1 the loader logs a warning naming
    the raw value and returns 1, otherwise it returns the parsed
    integer.  "0", "-3" and "x" give 1 and "7" gives 7. *)
Theorem sample_every_resolution environ :
  (∃ cfg ws, loads environ cfg ws
     ∧ (1 ≤ sample_every cfg)%Z
     ∧ match int.from_string (sample_raw environ) with
       | Some n =>
           if (n <? 1)%Z
           then sample_every cfg = 1%Z ∧ sample_warning (sample_raw environ) ∈ ws
           else sample_every cfg = n ∧ ∀ raw, sample_warning raw ∉ ws
       | None =>
           sample_every cfg = 1%Z ∧ sample_warning (sample_raw environ) ∈ ws
       end)
  ∧ Forall (λ raw,
        ∃ cfg ws, loads (<["LIVE_VLM_WEBHOOK_SAMPLE_EVERY" := raw]> environ) cfg ws
          ∧ sample_every cfg = 1%Z ∧ sample_warning raw ∈ ws)
      [lit "0"; lit "-3"; lit "x"]
  ∧ (∃ cfg ws, loads (<["LIVE_VLM_WEBHOOK_SAMPLE_EVERY" := lit "7"]> environ) cfg ws
       ∧ sample_every cfg = 7%Z ∧ ∀ raw, sample_warning raw ∉ ws).
Proof.
  split; [|split].
  - by_run environ. unfold loaded; cbn [sample_every].
    pose proof (sample_warning_logged environ) as Hlogged.
    unfold accepted_sample in *.
    destruct (int.from_string (sample_raw environ)) as [n|]; cbn in *.
    + destruct (n <? 1)%Z eqn:Hn; cbn in *.
      * split; [lia|]. split; [reflexivity|]. apply Hlogged. split; reflexivity.
      * apply Z.ltb_ge in Hn. split; [lia|]. split; [reflexivity|].
        intros raw [Hnone _]%Hlogged. discriminate Hnone.
    + split; [lia|]. split; [reflexivity|]. apply Hlogged. split; reflexivity.
  - repeat constructor;
      match goal with |- ∃ _ _, loads ?e _ _ ∧ _ => by_run e end;
      rewrite sample_warning_logged;
      unfold loaded, sample_raw, os.getenv_or; cbn [sample_every];
      rewrite lookup_insert_eq; repeat split; reflexivity.
  - match goal with |- ∃ _ _, loads ?e _ _ ∧ _ => by_run e end.
    split.
    + unfold loaded, sample_raw, os.getenv_or; cbn [sample_every].
      rewrite lookup_insert_eq. reflexivity.
    + intros raw. rewrite sample_warning_logged.
      unfold sample_raw, os.getenv_or. rewrite lookup_insert_eq.
      intros [Hnone _]. vm_compute in Hnone. discriminate Hnone.
Qed.

(** C8. The returned url is the value of LIVE_VLM_WEBHOOK_URL with the
    surrounding whitespace stripped, the empty string when the variable
    is unset, whatever its form; a true enabled flag with a url that is
    not empty stays true.  With the flag "true" and the url
    " https://x " the result is enabled with url "https://x". *)
Theorem url_resolution environ :
  (∃ cfg ws, loads environ cfg ws
     ∧ url cfg = str.strip (default (lit "") (environ !! "LIVE_VLM_WEBHOOK_URL"))
     ∧ (_env_bool environ "LIVE_VLM_WEBHOOK_ENABLED" false = true ->
        url cfg ≠ [] -> enabled cfg = true))
  ∧ (∃ cfg ws,
       loads (<["LIVE_VLM_WEBHOOK_ENABLED" := lit "true"]>
                (<["LIVE_VLM_WEBHOOK_URL" := lit " https://x "]> environ)) cfg ws
       ∧ enabled cfg = true ∧ url cfg = lit "https://x")
  ∧ (∃ cfg ws,
       loads (<["LIVE_VLM_WEBHOOK_ENABLED" := lit "true"]>
                (<["LIVE_VLM_WEBHOOK_URL" := lit "https://example.com/hook"]> environ))
             cfg ws
       ∧ enabled cfg = true ∧ url cfg = lit "https://example.com/hook").
Proof.
  split; [|split].
  - by_run environ. unfold loaded, enabled_without_url, url_raw, os.getenv_or.
    cbn [url enabled]. split.
    + destruct (environ !! "LIVE_VLM_WEBHOOK_URL"); reflexivity.
    + intros -> Hurl. rewrite (bool_decide_false _ Hurl). reflexivity.
  - match goal with |- ∃ _ _, loads ?e _ _ ∧ _ => by_run e end.
    unfold loaded, enabled_without_url, url_raw, _env_bool, os.getenv, os.getenv_or.
    cbn [url enabled].
    rewrite lookup_insert_eq, lookup_insert_ne, lookup_insert_eq by discriminate.
    split; reflexivity.
  - match goal with |- ∃ _ _, loads ?e _ _ ∧ _ => by_run e end.
    unfold loaded, enabled_without_url, url_raw, _env_bool, os.getenv, os.getenv_or.
    cbn [url enabled].
    rewrite lookup_insert_eq, lookup_insert_ne, lookup_insert_eq by discriminate.
    split; reflexivity.
Qed.

(** C9. When LIVE_VLM_WEBHOOK_INCLUDE_METRICS is set to the empty string
    or to whitespace only, or to any value that after stripping and
    lowercasing is none of "1", "true", "yes", "on", the returned
    include_metrics is false, which is not the default; the default
    true is what the loader returns once the variable is removed. *)
Theorem include_metrics_blank environ (v : list N) :
  Forall (λ c, str.isspace c = true) v ∨ str.lower (str.strip v) ∉ truthy ->
  (∃ cfg ws, loads (<["LIVE_VLM_WEBHOOK_INCLUDE_METRICS" := v]> environ) cfg ws
     ∧ include_metrics cfg = false
     ∧ include_metrics cfg ≠ include_metrics WebhookConfig_default)
  ∧ (∃ cfg ws, loads (delete "LIVE_VLM_WEBHOOK_INCLUDE_METRICS" environ) cfg ws
       ∧ include_metrics cfg = true).
Proof.
  intros Hv.
  assert (Hnot : str.lower (str.strip v) ∉ truthy).
  { destruct Hv as [Hblank|Hnot]; [|exact Hnot].
    rewrite (strip_whitespace v Hblank), lower_nil. not_elem_of_compute. }
  split.
  - match goal with |- ∃ _ _, loads ?e _ _ ∧ _ => by_run e end.
    unfold loaded, _env_bool, os.getenv; cbn [include_metrics].
    rewrite lookup_insert_eq. fold truthy.
    rewrite (bool_decide_false _ Hnot). split; [reflexivity|discriminate].
  - match goal with |- ∃ _ _, loads ?e _ _ ∧ _ => by_run e end.
    unfold loaded, _env_bool, os.getenv; cbn [include_metrics].
    rewrite lookup_delete_eq. reflexivity.
Qed.

(** C10. The result depends on the six variables only: in two
    environments that agree on them, calls made after the same log
    return the same configuration and write the same warnings. *)
Theorem load_webhook_config_depends_on_consumed environ1 environ2 :
  (∀ name, name ∈ consumed_variables -> environ1 !! name = environ2 !! name) ->
  ∀ log, load_webhook_config environ1 log = load_webhook_config environ2 log.
Proof.
  intros Hagree log.
  unfold load_webhook_config, _env_bool, os.getenv, os.getenv_or.
  rewrite !(Hagree _) by elem_of_compute.
  reflexivity.
Qed.
End Claims.

(** ** The theorems at concrete inputs *)

(** The decimal rounding on values whose binary64 form is well known:
    0.1 is 0x1.999999999999ap-4, 1e23 is 0x1.52d02c7e14af6p+76, 2^53+1
    ties to even, and the smallest subnormal and the largest finite
    number bound the range. *)
Example of_decimal_known_values :
  float.of_decimal false 1 (-1) = S754_finite false 0x1999999999999a (-56)
  ∧ float.of_decimal false 1 23 = S754_finite false 0x152d02c7e14af6 24
  ∧ float.of_decimal false 9007199254740993 0 = S754_finite false (2 ^ 52) 1
  ∧ float.of_decimal false 49 (-325) = S754_finite false 1 (-1074)
  ∧ float.of_decimal false 24703282292062327 (-340) = S754_zero false
  ∧ float.of_decimal false 24703282292062328 (-340) = S754_finite false 1 (-1074)
  ∧ float.of_decimal false 17976931348623158 292
    = S754_finite false (2 ^ 53 - 1) 971
  ∧ float.of_decimal false 17976931348623159 292 = S754_infinity false
  ∧ float.of_decimal true 1 (-400) = S754_zero true.
Proof. repeat split; vm_compute; reflexivity. Qed.

(** An exception does reach the handlers: [float("abc")] raises. *)
Example float_abc_raises :
  @builtins.float sample_runtime (lit "abc") [] = (Raises ValueError, []).
Proof. reflexivity. Qed.

(** Non-ASCII input: a no-break space is stripped, Arabic-Indic digits are
    read, and the separator 0x1C is whitespace for [strip] but not for
    [int]. *)
Example unicode_inputs :
  @str.strip sample_runtime [0xA0; 0x61; 0x3000] = lit "a"
  ∧ @int.from_string sample_runtime [0x661; 0x665] = Some 15%Z
  ∧ @str.strip sample_runtime [0x1C; 0x37] = lit "7"
  ∧ @int.from_string sample_runtime [0x1C; 0x37] = None.
Proof. repeat split; reflexivity. Qed.

(** C4 in an environment that sets only HOME. *)
Lemma load_webhook_config_defaults_witness :
  (∀ name, name ∈ consumed_variables ->
     ({[ "HOME" := lit "/root" ]} : gmap string (list N)) !! name = None)
  ∧ @load_webhook_config sample_runtime {[ "HOME" := lit "/root" ]} []
    = (Returns WebhookConfig_default, []).
Proof.
  assert (Hunset : ∀ name, name ∈ consumed_variables ->
            ({[ "HOME" := lit "/root" ]} : gmap string (list N)) !! name = None).
  { intros name Hname. unfold consumed_variables in Hname.
    repeat (apply elem_of_cons in Hname as [->|Hname]; [vm_compute; reflexivity|]).
    destruct (proj1 (elem_of_nil _) Hname). }
  split; [exact Hunset|].
  exact (@load_webhook_config_defaults sample_runtime _ Hunset []).
Defined.

(** C9 with LIVE_VLM_WEBHOOK_INCLUDE_METRICS set to a tab and a space. *)
Lemma include_metrics_blank_witness :
  Forall (λ c, @str.isspace sample_runtime c = true) [0x09; 0x20]
  ∧ (∃ cfg ws,
       @loads sample_runtime
         (<["LIVE_VLM_WEBHOOK_INCLUDE_METRICS" := [0x09; 0x20]]> ∅) cfg ws
       ∧ include_metrics cfg = false
       ∧ include_metrics cfg ≠ include_metrics WebhookConfig_default).
Proof.
  assert (Hblank : Forall (λ c, @str.isspace sample_runtime c = true) [0x09; 0x20]).
  { repeat constructor. }
  split; [exact Hblank|].
  exact (proj1 (@include_metrics_blank sample_runtime ∅ [0x09; 0x20] (or_introl Hblank))).
Defined.

(** C10 in two environments that differ in HOME only. *)
Lemma load_webhook_config_depends_on_consumed_witness :
  let environ1 : gmap string (list N) :=
    {[ "LIVE_VLM_WEBHOOK_MODE" := lit "multi"; "HOME" := lit "/root" ]} in
  let environ2 : gmap string (list N) :=
    {[ "LIVE_VLM_WEBHOOK_MODE" := lit "multi"; "HOME" := lit "/home/user" ]} in
  environ1 ≠ environ2
  ∧ (∀ name, name ∈ consumed_variables -> environ1 !! name = environ2 !! name)
  ∧ @load_webhook_config sample_runtime environ1 []
    = @load_webhook_config sample_runtime environ2 [].
Proof.
  intros environ1 environ2.
  assert (Hagree : ∀ name, name ∈ consumed_variables ->
            environ1 !! name = environ2 !! name).
  { intros name Hname. unfold consumed_variables in Hname.
    repeat (apply elem_of_cons in Hname as [->|Hname]; [vm_compute; reflexivity|]).
    destruct (proj1 (elem_of_nil _) Hname). }
  split; [|split; [exact Hagree|]].
  - intros Heq. apply (f_equal (λ m : gmap string (list N), m !! "HOME")) in Heq.
    vm_compute in Heq. discriminate Heq.
  - exact (@load_webhook_config_depends_on_consumed sample_runtime _ _ Hagree []).
Defined.

(** * Further properties *)

(** ** More on [str.strip] and [str.lower] *)

Section StripFacts.
Context `{PythonRuntime}.
Implicit Types (s w : list N).

Lemma lstrip_app_whitespace w s :
  Forall (λ c, str.isspace c = true) w -> str.lstrip (w ++ s) = str.lstrip s.
Proof.
  induction 1 as [|c w Hc _ IH]; [reflexivity|].
  cbn [app str.lstrip]. rewrite Hc. exact IH.
Qed.

Lemma lstrip_app_kept s w :
  str.lstrip s ≠ [] -> str.lstrip (s ++ w) = str.lstrip s ++ w.
Proof.
  induction s as [|c s IH]; [intros []; reflexivity|].
  cbn [app str.lstrip]. destruct (str.isspace c); [exact IH|reflexivity].
Qed.

(** What [lstrip] removes is whitespace. *)
Lemma lstrip_split s :
  ∃ pre, s = pre ++ str.lstrip s ∧ Forall (λ c, str.isspace c = true) pre.
Proof.
  induction s as [|c s (pre & Hs & Hpre)]; [exists []; split; [reflexivity|constructor]|].
  cbn [str.lstrip]. destruct (str.isspace c) eqn:Hc.
  - exists (c :: pre). split; [cbn; congruence|constructor; assumption].
  - exists []. split; [reflexivity|constructor].
Qed.

Lemma lstrip_head s c r : str.lstrip s = c :: r -> str.isspace c = false.
Proof.
  induction s as [|d s IH]; [discriminate|].
  cbn [str.lstrip]. destruct (str.isspace d) eqn:Hd; [exact IH|].
  intros [= <- _]. exact Hd.
Qed.

Lemma lstrip_fixed s :
  (∀ c r, s = c :: r -> str.isspace c = false) -> str.lstrip s = s.
Proof.
  destruct s as [|c r]; [reflexivity|]. intros Hhead.
  cbn [str.lstrip]. rewrite (Hhead c r eq_refl). reflexivity.
Qed.

Lemma strip_first s c r : str.strip s = c :: r -> str.isspace c = false.
Proof.
  unfold str.strip, str.rstrip. intros Hs.
  destruct (lstrip_split (rev (str.lstrip s))) as (pre & Hrev & _).
  apply (f_equal (@rev N)) in Hrev. rewrite rev_involutive, rev_app_distr, Hs in Hrev.
  apply (lstrip_head s c (r ++ rev pre)). exact Hrev.
Qed.

Lemma strip_last s c r : str.strip s = r ++ [c] -> str.isspace c = false.
Proof.
  unfold str.strip, str.rstrip. intros Hs.
  apply (f_equal (@rev N)) in Hs. rewrite rev_involutive, rev_app_distr in Hs.
  exact (lstrip_head _ _ _ Hs).
Qed.

Lemma strip_idempotent s : str.strip (str.strip s) = str.strip s.
Proof.
  unfold str.strip at 1. rewrite (lstrip_fixed (str.strip s)) by apply strip_first.
  unfold str.rstrip. rewrite lstrip_fixed; [apply rev_involutive|].
  intros c r Hrev. apply (f_equal (@rev N)) in Hrev.
  rewrite rev_involutive in Hrev. cbn [rev] in Hrev.
  exact (strip_last s c (rev r) Hrev).
Qed.

(** Whitespace around a value does not change what [strip] returns. *)
Lemma strip_padded w1 s w2 :
  Forall (λ c, str.isspace c = true) w1 ->
  Forall (λ c, str.isspace c = true) w2 ->
  str.strip (w1 ++ s ++ w2) = str.strip s.
Proof.
  intros Hw1 Hw2. unfold str.strip, str.rstrip.
  rewrite (lstrip_app_whitespace w1 _ Hw1).
  destruct (str.lstrip s) as [|c r] eqn:Hs.
  - destruct (lstrip_split s) as (pre & Hpre & Hspace). rewrite Hs, app_nil_r in Hpre.
    subst pre. rewrite (lstrip_app_whitespace s w2 Hspace).
    rewrite (lstrip_whitespace w2 Hw2). reflexivity.
  - rewrite lstrip_app_kept by (rewrite Hs; discriminate).
    rewrite Hs, rev_app_distr, lstrip_app_whitespace; [reflexivity|].
    apply Forall_rev. exact Hw2.
Qed.

Lemma isspace_tolower c : str.isspace (Py_TOLOWER c) = str.isspace c.
Proof.
  unfold Py_TOLOWER, Py_ISUPPER.
  destruct (N.leb_spec 65 c); [|reflexivity].
  destruct (N.leb_spec c 90); [|reflexivity]. cbn [andb].
  unfold str.isspace, _Py_ascii_whitespace, Py_ISSPACE.
  repeat match goal with
         | |- context [?a <? ?b] => destruct (N.ltb_spec a b)
         | |- context [?a <=? ?b] => destruct (N.leb_spec a b)
         | |- context [?a =? ?b] => destruct (N.eqb_spec a b)
         end; try reflexivity; lia.
Qed.

Lemma lstrip_tolower s :
  str.lstrip (map Py_TOLOWER s) = map Py_TOLOWER (str.lstrip s).
Proof.
  induction s as [|c s IH]; [reflexivity|].
  cbn [map str.lstrip]. rewrite isspace_tolower.
  destruct (str.isspace c); [exact IH|reflexivity].
Qed.

Lemma strip_tolower s :
  str.strip (map Py_TOLOWER s) = map Py_TOLOWER (str.strip s).
Proof.
  unfold str.strip, str.rstrip.
  rewrite lstrip_tolower, <- map_rev, lstrip_tolower, map_rev. reflexivity.
Qed.

Lemma lstrip_ascii s : Forall (λ c, c < 128) s -> Forall (λ c, c < 128) (str.lstrip s).
Proof.
  induction 1 as [|c s Hc Hs IH]; [constructor|].
  cbn [str.lstrip]. destruct (str.isspace c); [exact IH|constructor; assumption].
Qed.

Lemma strip_ascii s : Forall (λ c, c < 128) s -> Forall (λ c, c < 128) (str.strip s).
Proof.
  intros Hs. unfold str.strip, str.rstrip.
  apply Forall_rev, lstrip_ascii, Forall_rev, lstrip_ascii, Hs.
Qed.

Lemma lower_from_ascii before s :
  Forall (λ c, c < 128) s -> str.lower_from before s = map Py_TOLOWER s.
Proof.
  intros Hs. revert before.
  induction Hs as [|c s Hc _ IH]; intros before; [reflexivity|].
  cbn [str.lower_from map]. unfold str.lower_char.
  rewrite (proj2 (N.ltb_lt c 128) Hc), IH. reflexivity.
Qed.

(** On ASCII text [lower] is the bytewise [Py_TOLOWER]. *)
Lemma lower_ascii s : Forall (λ c, c < 128) s -> str.lower s = map Py_TOLOWER s.
Proof. apply lower_from_ascii. Qed.

Lemma tolower_idempotent c : Py_TOLOWER (Py_TOLOWER c) = Py_TOLOWER c.
Proof.
  unfold Py_TOLOWER, Py_ISUPPER.
  destruct (N.leb_spec 65 c), (N.leb_spec c 90); cbn [andb];
    repeat match goal with
           | |- context [?a <=? ?b] => destruct (N.leb_spec a b)
           end; cbn [andb]; try reflexivity; lia.
Qed.

(** The normal form that the flags and the mode are compared in does not
    see the letter case of ASCII text. *)
Lemma lower_strip_tolower s :
  Forall (λ c, c < 128) s ->
  str.lower (str.strip (map Py_TOLOWER s)) = str.lower (str.strip s).
Proof.
  intros Hs. rewrite strip_tolower.
  rewrite !lower_ascii.
  - rewrite map_map. apply map_ext. intros c. apply tolower_idempotent.
  - apply strip_ascii, Hs.
  - rewrite <- strip_tolower. apply strip_ascii.
    apply Forall_map. eapply Forall_impl; [exact Hs|].
    intros c Hc. cbn. unfold Py_TOLOWER, Py_ISUPPER.
    destruct (N.leb_spec 65 c); [|exact Hc].
    destruct (N.leb_spec c 90); [cbn; lia|exact Hc].
Qed.
End StripFacts.

(** ** More on what a call computes *)

Section RunFacts.
Context `{PythonRuntime}.
Implicit Types (environ : gmap string (list N)).

(** A call has one result: the one [load_webhook_config_run] gives. *)
Lemma loads_inv environ cfg ws :
  loads environ cfg ws -> cfg = loaded environ ∧ ws = warnings environ.
Proof.
  intros Hloads. specialize (Hloads []).
  rewrite (load_webhook_config_run environ []) in Hloads.
  cbn [app] in Hloads. injection Hloads as <- <-. split; reflexivity.
Qed.

(** The result is a function of six values read from the environment. *)
Lemma load_webhook_config_components environ1 environ2 :
  _env_bool environ1 "LIVE_VLM_WEBHOOK_ENABLED" false
    = _env_bool environ2 "LIVE_VLM_WEBHOOK_ENABLED" false ->
  str.strip (url_raw environ1) = str.strip (url_raw environ2) ->
  timeout_raw environ1 = timeout_raw environ2 ->
  lowered_mode environ1 = lowered_mode environ2 ->
  sample_raw environ1 = sample_raw environ2 ->
  _env_bool environ1 "LIVE_VLM_WEBHOOK_INCLUDE_METRICS" true
    = _env_bool environ2 "LIVE_VLM_WEBHOOK_INCLUDE_METRICS" true ->
  ∀ log, load_webhook_config environ1 log = load_webhook_config environ2 log.
Proof.
  intros Henabled Hurl Htimeout Hmode Hsample Hmetrics log.
  rewrite (load_webhook_config_run environ1 log), (load_webhook_config_run environ2 log).
  unfold loaded, warnings, enabled_without_url.
  rewrite Henabled, Hurl, Htimeout, Hmode, Hsample, Hmetrics. reflexivity.
Qed.
End RunFacts.

Ltac unfold_components :=
  unfold lowered_mode, url_raw, timeout_raw, mode_raw, sample_raw, _env_bool,
    os.getenv, os.getenv_or.

Section Extras.
Context `{PythonRuntime}.
Implicit Types (environ : gmap string (list N)).

(** X1. The returned url never starts or ends with whitespace, and
    stripping it again changes nothing. *)
Theorem url_is_stripped environ :
  ∃ cfg ws, loads environ cfg ws
    ∧ str.strip (url cfg) = url cfg
    ∧ (∀ c r, url cfg = c :: r -> str.isspace c = false)
    ∧ (∀ c r, url cfg = r ++ [c] -> str.isspace c = false).
Proof.
  by_run environ. unfold loaded; cbn [url].
  split; [apply strip_idempotent|]. split.
  - intros c r. apply strip_first.
  - intros c r. apply strip_last.
Qed.

(** X2. Whitespace around the value of LIVE_VLM_WEBHOOK_ENABLED, _URL,
    _MODE or _INCLUDE_METRICS changes neither the returned record nor the
    warnings. *)
Theorem whitespace_padding_ignored environ name (v w1 w2 : list N) :
  name ∈ [ "LIVE_VLM_WEBHOOK_ENABLED"; "LIVE_VLM_WEBHOOK_URL";
           "LIVE_VLM_WEBHOOK_MODE"; "LIVE_VLM_WEBHOOK_INCLUDE_METRICS" ] ->
  Forall (λ c, str.isspace c = true) w1 ->
  Forall (λ c, str.isspace c = true) w2 ->
  ∀ log, load_webhook_config (<[name := w1 ++ v ++ w2]> environ) log
         = load_webhook_config (<[name := v]> environ) log.
Proof.
  intros Hname Hw1 Hw2.
  repeat (apply elem_of_cons in Hname as [->|Hname]);
    [..|destruct (proj1 (elem_of_nil _) Hname)];
    apply load_webhook_config_components; unfold_components;
    first [ rewrite !lookup_insert_ne by discriminate; reflexivity
          | rewrite !lookup_insert_eq, (strip_padded w1 v w2 Hw1 Hw2); reflexivity ].
Qed.

(** X3. Two ASCII values of LIVE_VLM_WEBHOOK_ENABLED, _MODE or
    _INCLUDE_METRICS that differ in letter case only give the same record
    and the same warnings. *)
Theorem ascii_case_ignored environ name (v1 v2 : list N) :
  name ∈ [ "LIVE_VLM_WEBHOOK_ENABLED"; "LIVE_VLM_WEBHOOK_MODE";
           "LIVE_VLM_WEBHOOK_INCLUDE_METRICS" ] ->
  Forall (λ c, c < 128) v1 ->
  Forall (λ c, c < 128) v2 ->
  map Py_TOLOWER v1 = map Py_TOLOWER v2 ->
  ∀ log, load_webhook_config (<[name := v1]> environ) log
         = load_webhook_config (<[name := v2]> environ) log.
Proof.
  intros Hname Hv1 Hv2 Hcase.
  assert (Hnorm : str.lower (str.strip v1) = str.lower (str.strip v2)).
  { rewrite <- (lower_strip_tolower v1 Hv1), <- (lower_strip_tolower v2 Hv2), Hcase.
    reflexivity. }
  repeat (apply elem_of_cons in Hname as [->|Hname]);
    [..|destruct (proj1 (elem_of_nil _) Hname)];
    apply load_webhook_config_components; unfold_components;
    first [ rewrite !lookup_insert_ne by discriminate; reflexivity
          | rewrite !lookup_insert_eq, Hnorm; reflexivity ].
Qed.

(** X4. A call logs at most four warnings, each at most once and in the
    order of the source: timeout, period, mode, missing url. *)
Theorem warnings_in_source_order environ :
  ∃ cfg ws, loads environ cfg ws
    ∧ sublist ws [ timeout_warning (timeout_raw environ);
                   sample_warning (sample_raw environ);
                   mode_warning (str.lower (str.strip (mode_raw environ)));
                   url_warning ].
Proof.
  by_run environ. unfold warnings.
  assert (Hmode : lowered_mode environ ∉ modes ->
            lowered_mode environ = str.lower (str.strip (mode_raw environ))).
  { unfold lowered_mode. destruct (str.lower _) as [|c r]; [|reflexivity].
    intros Hnot. destruct (Hnot both_in_modes). }
  destruct (accepted_timeout _), (accepted_sample _),
    (bool_decide_reflect (lowered_mode environ ∈ modes)) as [Hin|Hnot],
    (enabled_without_url _); cbn [app];
    try rewrite (Hmode Hnot); repeat constructor.
Qed.

(** X5. The returned timeout never satisfies [timeout_sec <= 0]: it is a
    positive finite number, plus infinity or a NaN, never a zero, a
    negative number or minus infinity. *)
Theorem timeout_sec_never_nonpositive environ :
  ∃ cfg ws, loads environ cfg ws
    ∧ float_le_0 (timeout_sec cfg) = false
    ∧ (timeout_sec cfg = S754_nan
       ∨ timeout_sec cfg = S754_infinity false
       ∨ ∃ m e, timeout_sec cfg = S754_finite false m e).
Proof.
  by_run environ. unfold loaded; cbn [timeout_sec].
  assert (Hle : float_le_0 (default float_2_0 (accepted_timeout (timeout_raw environ)))
                = false).
  { unfold accepted_timeout.
    destruct (float.from_string (timeout_raw environ)) as [x|]; [|reflexivity].
    cbn. destruct (float_le_0 x) eqn:Hx; [reflexivity|exact Hx]. }
  split; [exact Hle|].
  destruct (default float_2_0 _) as [s|s| |s m e]; try destruct s;
    try discriminate Hle; eauto.
Qed.

(** X8. Each field follows its own variable: url, timeout_sec, mode,
    sample_every and include_metrics are the same in two environments
    that agree on the one variable they are read from, and enabled is the
    same when the environments agree on the flag and on the url. *)
Theorem fields_follow_their_variables environ1 environ2 :
  ∃ cfg1 ws1 cfg2 ws2, loads environ1 cfg1 ws1 ∧ loads environ2 cfg2 ws2
    ∧ (environ1 !! "LIVE_VLM_WEBHOOK_URL" = environ2 !! "LIVE_VLM_WEBHOOK_URL" ->
       url cfg1 = url cfg2)
    ∧ (environ1 !! "LIVE_VLM_WEBHOOK_TIMEOUT_SEC"
         = environ2 !! "LIVE_VLM_WEBHOOK_TIMEOUT_SEC" ->
       timeout_sec cfg1 = timeout_sec cfg2)
    ∧ (environ1 !! "LIVE_VLM_WEBHOOK_MODE" = environ2 !! "LIVE_VLM_WEBHOOK_MODE" ->
       mode cfg1 = mode cfg2)
    ∧ (environ1 !! "LIVE_VLM_WEBHOOK_SAMPLE_EVERY"
         = environ2 !! "LIVE_VLM_WEBHOOK_SAMPLE_EVERY" ->
       sample_every cfg1 = sample_every cfg2)
    ∧ (environ1 !! "LIVE_VLM_WEBHOOK_INCLUDE_METRICS"
         = environ2 !! "LIVE_VLM_WEBHOOK_INCLUDE_METRICS" ->
       include_metrics cfg1 = include_metrics cfg2)
    ∧ (environ1 !! "LIVE_VLM_WEBHOOK_ENABLED" = environ2 !! "LIVE_VLM_WEBHOOK_ENABLED" ->
       environ1 !! "LIVE_VLM_WEBHOOK_URL" = environ2 !! "LIVE_VLM_WEBHOOK_URL" ->
       enabled cfg1 = enabled cfg2).
Proof.
  exists (loaded environ1), (warnings environ1), (loaded environ2), (warnings environ2).
  split; [apply load_webhook_config_run|]. split; [apply load_webhook_config_run|].
  unfold loaded, enabled_without_url; unfold_components.
  cbn [url timeout_sec mode sample_every include_metrics enabled].
  repeat split; intros; repeat match goal with Heq : _ !! _ = _ !! _ |- _ => rewrite Heq; clear Heq end; reflexivity.
Qed.
End Extras.

(** ** Rounding never makes a NaN *)

Lemma iter_pos_invariant {A} (P : A -> Prop) (f : A -> A) :
  (∀ x, P x -> P (f x)) -> ∀ n x, P x -> P (SpecFloat.iter_pos f n x).
Proof.
  intros Hf. induction n as [n IH|n IH|]; intros x Hx; cbn [SpecFloat.iter_pos]; auto.
Qed.

Lemma shr_1_nonneg mrs : (0 <= shr_m mrs)%Z -> (0 <= shr_m (shr_1 mrs))%Z.
Proof.
  destruct mrs as [m r s]. cbn [shr_m].
  destruct m as [|[p|p|]|p]; cbn; lia.
Qed.

Lemma shr_fexp_nonneg prec emax m e l :
  (0 <= m)%Z -> (0 <= shr_m (fst (shr_fexp prec emax m e l)))%Z.
Proof.
  intros Hm. unfold shr_fexp, shr.
  assert (Hrec : (0 <= shr_m (shr_record_of_loc m l))%Z)
    by (destruct l as [|[]]; exact Hm).
  destruct (fexp prec emax (Zdigits2 m + e) - e)%Z as [|p|p]; cbn [fst]; try exact Hrec.
  apply (iter_pos_invariant (λ mrs, (0 <= shr_m mrs)%Z)); [apply shr_1_nonneg|exact Hrec].
Qed.

Lemma round_nearest_even_nonneg m l :
  (0 <= m)%Z -> (0 <= round_nearest_even m l)%Z.
Proof.
  intros Hm. unfold round_nearest_even.
  destruct l as [|[]]; try destruct (Z.even m); lia.
Qed.

Lemma binary_round_aux_not_nan prec emax sx mx ex lx :
  (0 <= mx)%Z -> binary_round_aux prec emax sx mx ex lx ≠ S754_nan.
Proof.
  intros Hmx. unfold binary_round_aux.
  pose proof (shr_fexp_nonneg prec emax mx ex lx Hmx) as H1.
  destruct (shr_fexp prec emax mx ex lx) as [mrs' e']. cbn [fst] in H1.
  pose proof (shr_fexp_nonneg prec emax _ e' loc_Exact
                (round_nearest_even_nonneg _ (loc_of_shr_record mrs') H1)) as H2.
  destruct (shr_fexp prec emax _ e' loc_Exact) as [mrs'' e'']. cbn [fst] in H2.
  destruct (shr_m mrs'') as [|m|m]; [discriminate| |lia].
  destruct (e'' <=? emax - prec)%Z; discriminate.
Qed.

(** The value of a decimal numeral is a zero, a finite number or an
    infinity. *)
Lemma of_decimal_not_nan neg m e : float.of_decimal neg m e ≠ S754_nan.
Proof.
  unfold float.of_decimal. destruct m as [|p|p]; try discriminate.
  destruct (0 <=? e)%Z eqn:He.
  - unfold binary_round. destruct (shl_align _ _ _) as [mz ez].
    apply binary_round_aux_not_nan. lia.
  - apply Z.leb_gt in He. unfold SFdiv_core_binary.
    set (m' := match (0 - 0 - _)%Z with Z0 => _ | Zpos _ => _ | Zneg _ => _ end).
    assert (Hm' : (0 <= m')%Z).
    { subst m'. destruct (0 - 0 - _)%Z; try lia. apply Z.shiftl_nonneg. lia. }
    assert (Hten : (10 ^ (- e) > 0)%Z) by (apply Z.lt_gt, Z.pow_pos_nonneg; lia).
    pose proof (Z_div_mod m' (10 ^ (- e)) Hten) as Hdiv.
    destruct (Z.div_eucl m' (10 ^ (- e))) as [q r].
    apply binary_round_aux_not_nan. nia.
Qed.

Lemma _Py_dg_strtod_not_nan s x rest :
  float._Py_dg_strtod s = Some (x, rest) -> x ≠ S754_nan.
Proof.
  unfold float._Py_dg_strtod.
  destruct (scan_sign s) as [sign s1], (scan_digits s1) as [int_digits s2],
    (float.scan_fraction s2) as [frac_digits s3].
  destruct (int_digits ++ frac_digits); [discriminate|].
  destruct (_ || _); [discriminate|].
  destruct (float.scan_exponent s3) as [e r].
  intros [= <- _]. apply of_decimal_not_nan.
Qed.

(** ** Which strings [float] reads as a NaN *)

Lemma skip_spaces_split s :
  ∃ pre, s = pre ++ skip_spaces s ∧ Forall (λ c, Py_ISSPACE c = true) pre.
Proof.
  induction s as [|c s (pre & Hs & Hpre)]; [exists []; split; [reflexivity|constructor]|].
  cbn [skip_spaces]. destruct (Py_ISSPACE c) eqn:Hc.
  - exists (c :: pre). split; [cbn; congruence|constructor; assumption].
  - exists []. split; [reflexivity|constructor].
Qed.

Lemma ascii_trim_split s :
  ∃ pre post, s = pre ++ ascii_trim s ++ post
    ∧ Forall (λ c, Py_ISSPACE c = true) pre
    ∧ Forall (λ c, Py_ISSPACE c = true) post.
Proof.
  unfold ascii_trim.
  destruct (skip_spaces_split s) as (pre & Hs & Hpre).
  destruct (skip_spaces_split (rev (skip_spaces s))) as (post & Hrev & Hpost).
  exists pre, (rev post). split; [|split; [exact Hpre|apply Forall_rev, Hpost]].
  rewrite <- rev_app_distr, <- Hrev, rev_involutive. exact Hs.
Qed.

Lemma case_insensitive_match_spec s t r :
  float.case_insensitive_match s t = Some r ->
  ∃ p, s = p ++ r ∧ map Py_TOLOWER p = t.
Proof.
  revert s. induction t as [|b t IH]; intros s.
  - destruct s; intros [= <-]; exists []; split; reflexivity.
  - destruct s as [|c s]; [discriminate|]. cbn [float.case_insensitive_match].
    destruct (N.eqb_spec (Py_TOLOWER c) b) as [Hc|]; [|discriminate].
    intros (p & -> & <-)%IH. exists (c :: p). split; [reflexivity|cbn; congruence].
Qed.

Lemma tolower_inv c b :
  Py_TOLOWER c = b -> c = b ∨ (c + 32 = b ∧ 65 <= c <= 90).
Proof.
  unfold Py_TOLOWER, Py_ISUPPER.
  destruct (N.leb_spec 65 c), (N.leb_spec c 90); cbn [andb]; intros <-; auto.
Qed.

(** A string that spells nan holds neither a digit nor an underscore. *)
Lemma spells_nan_chars s :
  spells_nan s -> Forall (λ c, Py_ISDIGIT c = false ∧ c ≠ chr "_") s.
Proof.
  unfold spells_nan. intros Hnan.
  destruct (ascii_trim_split s) as (pre & post & Hs & Hpre & Hpost).
  assert (Hspace : ∀ l, Forall (λ c, Py_ISSPACE c = true) l ->
            Forall (λ c, Py_ISDIGIT c = false ∧ c ≠ chr "_") l).
  { intros l Hl. eapply Forall_impl; [exact Hl|]. intros c. unfold Py_ISSPACE, Py_ISDIGIT.
    change (chr "_") with 95.
    destruct (N.leb_spec 9 c), (N.leb_spec c 13), (N.eqb_spec c 32),
      (N.leb_spec 48 c), (N.leb_spec c 57); cbn; intros; split; try lia; congruence. }
  assert (Hletters : ∀ l t, map Py_TOLOWER l = t ->
            Forall (λ b, 97 <= b <= 122) t ->
            Forall (λ c, Py_ISDIGIT c = false ∧ c ≠ chr "_") l).
  { intros l t <-. rewrite Forall_map. intros Hl. eapply Forall_impl; [exact Hl|].
    intros c Hc. cbn in Hc.
    change (chr "_") with 95. unfold Py_ISDIGIT.
    destruct (tolower_inv c _ eq_refl) as [Heq|[Heq ?]];
      destruct (N.leb_spec 48 c), (N.leb_spec c 57); cbn; split; try lia; congruence. }
  rewrite Hs. apply Forall_app. split; [apply Hspace, Hpre|].
  apply Forall_app. split; [|apply Hspace, Hpost].
  assert (Hs1 : Forall (λ c, Py_ISDIGIT c = false ∧ c ≠ chr "_")
                  (snd (scan_sign (ascii_trim s)))).
  { apply (Hletters _ _ Hnan). repeat constructor; cbn; lia. }
  revert Hs1. unfold scan_sign. destruct (ascii_trim s) as [|c r]; [intros _; constructor|].
  destruct (N.eqb_spec c (chr "-")) as [->|Hminus].
  - cbn [snd]. intros Hs1. constructor; [split; [reflexivity|discriminate]|exact Hs1].
  - destruct (N.eqb_spec c (chr "+")) as [->|Hplus]; cbn [snd]; intros Hs1.
    + constructor; [split; [reflexivity|discriminate]|exact Hs1].
    + exact Hs1.
Qed.

Lemma remove_underscores_digit prev s t :
  float.remove_underscores prev s = Some t ->
  chr "_" ∈ s ->
  Py_ISDIGIT prev = true ∨ ∃ d, d ∈ t ∧ Py_ISDIGIT d = true.
Proof.
  revert prev t. induction s as [|c s IH]; intros prev t Hrem Hin.
  { destruct (proj1 (elem_of_nil _) Hin). }
  cbn [float.remove_underscores] in Hrem.
  destruct (c =? 0); [discriminate|].
  destruct (N.eqb_spec c (chr "_")) as [->|Hc].
  - destruct (Py_ISDIGIT prev); [left; reflexivity|discriminate].
  - destruct (_ && _); [discriminate|].
    destruct (float.remove_underscores c s) as [t'|] eqn:Hrec; [|discriminate].
    cbn in Hrem. injection Hrem as <-.
    apply elem_of_cons in Hin as [Heq|Hin]; [congruence|].
    right. destruct (IH c t' Hrec Hin) as [Hd|(d & Hd & Hdigit)].
    + exists c. split; [left|exact Hd].
    + exists d. split; [right; exact Hd|exact Hdigit].
Qed.

Lemma float_from_string_inner_nan s :
  float.float_from_string_inner s = Some S754_nan ↔ spells_nan s.
Proof.
  unfold float.float_from_string_inner, spells_nan. fold (ascii_trim s).
  unfold float._PyOS_ascii_strtod. split.
  - destruct (float._Py_dg_strtod (ascii_trim s)) as [[x rest]|] eqn:Hnum.
    + destruct rest; [|discriminate]. intros [= ->].
      destruct (_Py_dg_strtod_not_nan _ _ _ Hnum eq_refl).
    + unfold float._Py_parse_inf_or_nan.
      destruct (scan_sign (ascii_trim s)) as [negate s1]. cbn [snd].
      destruct (float.case_insensitive_match s1 (lit "inf")) as [r|].
      { destruct (float.case_insensitive_match r (lit "inity")) as [[|]|];
          try destruct r; discriminate. }
      destruct (float.case_insensitive_match s1 (lit "nan")) as [r|] eqn:Hm; [|discriminate].
      destruct r; [|discriminate]. intros _.
      apply case_insensitive_match_spec in Hm as (p & -> & Hp).
      rewrite app_nil_r. exact Hp.
  - intros Hnan. unfold float._Py_dg_strtod, float._Py_parse_inf_or_nan.
    destruct (scan_sign (ascii_trim s)) as [negate s1]. cbn [snd] in Hnan.
    destruct s1 as [|a [|b [|c [|? ?]]]]; try discriminate Hnan.
    injection Hnan as Ha Hb Hc.
    apply tolower_inv in Ha as [->|[Ha _]], Hb as [->|[Hb _]], Hc as [->|[Hc _]];
      try (assert (a = 78) as -> by (cbn in Ha; lia));
      try (assert (b = 65) as -> by (cbn in Hb; lia));
      try (assert (c = 78) as -> by (cbn in Hc; lia));
      reflexivity.
Qed.

(** [float(s)] is a NaN exactly when [s], after the translation of
    Unicode spaces and digits, spells nan. *)
Lemma float_from_string_nan `{PythonRuntime} (s : list N) :
  float.from_string s = Some S754_nan
  ↔ spells_nan (str.TransformDecimalAndSpaceToASCII s).
Proof.
  unfold float.from_string, float.string_to_number_with_underscores.
  set (t0 := str.TransformDecimalAndSpaceToASCII s). split.
  - destruct (existsb (N.eqb (chr "_")) t0) eqn:Hus;
      [|cbn; apply float_from_string_inner_nan].
    destruct (float.remove_underscores 0 t0) as [t|] eqn:Hrem; [|discriminate].
    cbn. intros Hnan%float_from_string_inner_nan%spells_nan_chars.
    apply existsb_exists in Hus as (u & Hu & <-%N.eqb_eq).
    apply list_elem_of_In in Hu.
    destruct (remove_underscores_digit 0 t0 t Hrem Hu) as [Hd|(d & Hd & Hdigit)];
      [discriminate Hd|].
    rewrite Forall_forall in Hnan. destruct (Hnan d Hd) as [Hnot _]. congruence.
  - intros Hnan.
    assert (Hus : existsb (N.eqb (chr "_")) t0 = false).
    { apply not_true_is_false. intros (u & Hu & <-%N.eqb_eq)%existsb_exists.
      apply list_elem_of_In in Hu.
      pose proof (spells_nan_chars t0 Hnan) as Hchars.
      rewrite Forall_forall in Hchars. destruct (Hchars _ Hu) as [_ []]. reflexivity. }
    rewrite Hus. cbn. apply float_from_string_inner_nan, Hnan.
Qed.

Section FloatExtras.
Context `{PythonRuntime}.
Implicit Types (environ : gmap string (list N)).

(** X6. The returned timeout is a NaN exactly when the value of
    LIVE_VLM_WEBHOOK_TIMEOUT_SEC, after whitespace and an optional sign,
    spells nan in some letter case. *)
Theorem timeout_nan_only_from_nan_literal environ :
  ∃ cfg ws, loads environ cfg ws
    ∧ (timeout_sec cfg = S754_nan
       ↔ spells_nan (str.TransformDecimalAndSpaceToASCII (timeout_raw environ))).
Proof.
  by_run environ. unfold loaded; cbn [timeout_sec].
  rewrite <- float_from_string_nan. unfold accepted_timeout.
  destruct (float.from_string (timeout_raw environ)) as [x|]; cbn.
  - destruct (float_le_0 x) eqn:Hx; cbn.
    + split; [discriminate|]. intros [= ->]. discriminate Hx.
    + split; congruence.
  - split; discriminate.
Qed.
End FloatExtras.

(** ** Which strings [int] reads *)

Lemma skip_spaces_nil_inv s : skip_spaces s = [] -> Forall (λ c, Py_ISSPACE c = true) s.
Proof.
  intros Hs. destruct (skip_spaces_split s) as (pre & Heq & Hpre).
  rewrite Hs, app_nil_r in Heq. subst pre. exact Hpre.
Qed.

Lemma scan_long_digits_split prev s ds rest :
  int.scan_long_digits prev s = Some (ds, rest) ->
  ∃ pre, s = pre ++ rest
    ∧ Forall (λ c, Py_ISDIGIT c = true ∨ c = chr "_") pre.
Proof.
  revert prev ds. induction s as [|c s IH]; intros prev ds; cbn [int.scan_long_digits].
  - destruct (prev =? chr "_"); [discriminate|]. intros [= <- <-].
    exists []. split; [reflexivity|constructor].
  - destruct (N.eqb_spec c (chr "_")) as [->|Hc].
    + destruct (prev =? chr "_"); [discriminate|].
      intros (pre & -> & Hpre)%IH. exists (chr "_" :: pre).
      split; [reflexivity|constructor; [right; reflexivity|exact Hpre]].
    + destruct (Py_ISDIGIT c) eqn:Hdigit.
      * destruct (int.scan_long_digits c s) as [[ds' rest']|] eqn:Hrec; [|discriminate].
        cbn. intros [= <- <-]. apply IH in Hrec as (pre & -> & Hpre).
        exists (c :: pre). split; [reflexivity|constructor; [left; exact Hdigit|exact Hpre]].
      * destruct (prev =? chr "_"); [discriminate|]. intros [= <- <-].
        exists []. split; [reflexivity|constructor].
Qed.

(** What [int] accepts is made of whitespace, digits, underscores and
    signs only. *)
Lemma PyLong_FromString_chars `{PythonRuntime} (s : list N) n :
  int.PyLong_FromString s = Some n -> Forall (λ c, int_literal_char c = true) s.
Proof.
  unfold int.PyLong_FromString.
  destruct (skip_spaces_split s) as (pre & Hs & Hpre).
  destruct (scan_sign (skip_spaces s)) as [negative s1] eqn:Hsign.
  assert (Hsigned : ∃ sign, skip_spaces s = sign ++ s1
            ∧ Forall (λ c, int_literal_char c = true) sign).
  { revert Hsign. unfold scan_sign. destruct (skip_spaces s) as [|c r].
    - intros [= _ <-]. exists []. split; [reflexivity|constructor].
    - destruct (N.eqb_spec c (chr "-")) as [->|_];
        [|destruct (N.eqb_spec c (chr "+")) as [->|_]]; intros [= _ <-].
      + exists [chr "-"]. split; [reflexivity|repeat constructor].
      + exists [chr "+"]. split; [reflexivity|repeat constructor].
      + exists []. split; [reflexivity|constructor]. }
  destruct Hsigned as (sign & Hsigned & Hsign_chars).
  destruct (match s1 with [] => Some tt | c :: _ => _ end) as [[]|]; [|discriminate].
  cbn [mbind option_bind].
  destruct (int.scan_long_digits 0 s1) as [[ds rest]|] eqn:Hscan; [|discriminate].
  cbn [mbind option_bind].
  destruct (_ && _); [discriminate|].
  destruct ds as [|d ds]; [discriminate|].
  destruct (skip_spaces rest) eqn:Hrest; [|discriminate]. intros _.
  apply scan_long_digits_split in Hscan as (body & -> & Hbody).
  apply skip_spaces_nil_inv in Hrest.
  rewrite Hs, Hsigned. repeat (apply Forall_app; split); try exact Hsign_chars.
  - eapply Forall_impl; [exact Hpre|]. intros c Hc. unfold int_literal_char.
    rewrite Hc. reflexivity.
  - eapply Forall_impl; [exact Hbody|]. intros c [Hc| ->]; unfold int_literal_char.
    + rewrite Hc. apply orb_true_iff. left. apply orb_true_iff. left.
      apply orb_true_iff. left. apply orb_true_r.
    + reflexivity.
  - eapply Forall_impl; [exact Hrest|]. intros c Hc. unfold int_literal_char.
    rewrite Hc. reflexivity.
Qed.

(** The translation keeps an ASCII character that a parser refuses, or
    cuts the string at a question mark, which every parser refuses. *)
Lemma transform_keeps_offender `{PythonRuntime} (ok : N -> bool) (s : list N) c :
  ok (chr "?") = false ->
  c ∈ s -> c < 128 -> ok c = false ->
  ∃ c', c' ∈ str.TransformDecimalAndSpaceToASCII s ∧ ok c' = false.
Proof.
  intros Hmark Hin Hascii Hbad. induction s as [|d s IH].
  { destruct (proj1 (elem_of_nil _) Hin). }
  cbn [str.TransformDecimalAndSpaceToASCII].
  assert (Htail : c ∈ s ->
            ∀ x, ∃ c', c' ∈ x :: str.TransformDecimalAndSpaceToASCII s ∧ ok c' = false).
  { intros Hc x. destruct (IH Hc) as (c' & Hc' & Hbad'). exists c'.
    split; [right; exact Hc'|exact Hbad']. }
  apply elem_of_cons in Hin as [<-|Hin].
  - rewrite (proj2 (N.ltb_lt c 128) Hascii). exists c. split; [left|exact Hbad].
  - destruct (d <? 128); [apply Htail, Hin|].
    destruct (unicode_isspace d); [apply Htail, Hin|].
    destruct (unicode_todecimal d); [apply Htail, Hin|].
    exists (chr "?"). split; [left|exact Hmark].
Qed.

Lemma scan_long_digits_all_digits prev s :
  prev ≠ chr "_" ->
  Forall (λ c, Py_ISDIGIT c = true) s ->
  int.scan_long_digits prev s = Some (map (λ c, c - chr "0") s, []).
Proof.
  intros Hprev Hs. revert prev Hprev.
  induction Hs as [|c s Hc _ IH]; intros prev Hprev; cbn [int.scan_long_digits map].
  - rewrite (proj2 (N.eqb_neq prev (chr "_")) Hprev). reflexivity.
  - assert (Hnot : c ≠ chr "_").
    { intros ->. discriminate Hc. }
    rewrite (proj2 (N.eqb_neq c (chr "_")) Hnot), Hc, (IH c Hnot). reflexivity.
Qed.

Lemma transform_ascii `{PythonRuntime} (s : list N) :
  Forall (λ c, c < 128) s -> str.TransformDecimalAndSpaceToASCII s = s.
Proof.
  induction 1 as [|c s Hc _ IH]; [reflexivity|].
  cbn [str.TransformDecimalAndSpaceToASCII].
  rewrite (proj2 (N.ltb_lt c 128) Hc), IH. reflexivity.
Qed.

Lemma digit_is_ascii c : Py_ISDIGIT c = true -> c < 128.
Proof.
  unfold Py_ISDIGIT. intros [_ Hc%N.leb_le]%andb_true_iff. lia.
Qed.

(** [int] on a string of ASCII digits: its decimal value, unless the
    string is longer than both 640 digits and the interpreter's limit. *)
Lemma int_from_digit_string `{PythonRuntime} (s : list N) :
  s ≠ [] ->
  Forall (λ c, Py_ISDIGIT c = true) s ->
  int.from_string s
  = if (640 <? N.of_nat (length s))
       && (0 <? int_max_str_digits) && (int_max_str_digits <? N.of_nat (length s))
    then None
    else Some (Z.of_N (digits_value (map (λ c, c - chr "0") s))).
Proof.
  intros Hne Hs. unfold int.from_string.
  rewrite transform_ascii by (eapply Forall_impl; [exact Hs|apply digit_is_ascii]).
  unfold int.PyLong_FromString.
  destruct s as [|c r]; [congruence|].
  pose proof (Forall_inv Hs) as Hc. cbn beta in Hc.
  assert (Hclass : Py_ISSPACE c = false ∧ (c =? chr "-") = false
                   ∧ (c =? chr "+") = false ∧ (c =? chr "_") = false).
  { revert Hc. unfold Py_ISDIGIT, Py_ISSPACE.
    change (chr "-") with 45. change (chr "+") with 43. change (chr "_") with 95.
    destruct (N.leb_spec 48 c), (N.leb_spec c 57), (N.leb_spec 9 c), (N.leb_spec c 13),
      (N.eqb_spec c 32), (N.eqb_spec c 45), (N.eqb_spec c 43), (N.eqb_spec c 95);
      cbn; intros; repeat split; try reflexivity; try discriminate; lia. }
  destruct Hclass as (Hspace & Hminus & Hplus & Hus).
  cbn [skip_spaces]. rewrite Hspace. unfold scan_sign. rewrite Hminus, Hplus, Hus.
  cbn [mbind option_bind].
  rewrite (scan_long_digits_all_digits 0 (c :: r)) by (discriminate || exact Hs).
  cbn [mbind option_bind]. rewrite length_map.
  unfold int._PY_LONG_MAX_STR_DIGITS_THRESHOLD.
  destruct (_ && _); reflexivity.
Qed.

Section IntExtras.
Context `{PythonRuntime}.
Implicit Types (environ : gmap string (list N)).

(** X7. A value of LIVE_VLM_WEBHOOK_SAMPLE_EVERY made of ASCII digits is
    read as its decimal value (leading zeros allowed) and returned when it
    is at least 1; but a digit string longer than 640 digits and than the
    interpreter's integer string limit is refused, and the period is then
    1 with a warning. *)
Theorem sample_every_digit_string environ (raw : list N) :
  raw ≠ [] ->
  Forall (λ c, Py_ISDIGIT c = true) raw ->
  ∃ cfg ws, loads (<["LIVE_VLM_WEBHOOK_SAMPLE_EVERY" := raw]> environ) cfg ws
    ∧ let n := Z.of_N (digits_value (map (λ c, c - chr "0") raw)) in
      let digits := N.of_nat (length raw) in
      if (640 <? digits) && (0 <? int_max_str_digits) && (int_max_str_digits <? digits)
         || (n <? 1)%Z
      then sample_every cfg = 1%Z ∧ sample_warning raw ∈ ws
      else sample_every cfg = n ∧ ∀ r, sample_warning r ∉ ws.
Proof.
  intros Hne Hraw.
  match goal with |- ∃ _ _, loads ?e _ _ ∧ _ => by_run e end.
  pose proof (sample_warning_logged
                (<["LIVE_VLM_WEBHOOK_SAMPLE_EVERY" := raw]> environ)) as Hlogged.
  unfold loaded; cbn [sample_every]. revert Hlogged.
  unfold sample_raw, os.getenv_or. rewrite lookup_insert_eq.
  unfold accepted_sample. rewrite (int_from_digit_string raw Hne Hraw).
  cbn zeta. cbn [mbind option_bind].
  destruct (_ && _); cbn [orb mbind option_bind default];
    [|destruct (_ <? 1)%Z; cbn [mbind option_bind default]]; intros Hlogged.
  - split; [reflexivity|]. apply Hlogged. split; reflexivity.
  - split; [reflexivity|]. apply Hlogged. split; reflexivity.
  - split; [reflexivity|]. intros r [Hnone _]%Hlogged. discriminate Hnone.
Qed.

(** X9. A value of LIVE_VLM_WEBHOOK_SAMPLE_EVERY that holds an ASCII
    character other than whitespace, a digit, an underscore or a sign (a
    point, a letter, a separator 0x1C-0x1F, ...) gives the period 1 and a
    warning naming the value. *)
Theorem sample_every_rejects_other_characters environ (raw : list N) c :
  c ∈ raw -> c < 128 -> int_literal_char c = false ->
  ∃ cfg ws, loads (<["LIVE_VLM_WEBHOOK_SAMPLE_EVERY" := raw]> environ) cfg ws
    ∧ sample_every cfg = 1%Z ∧ sample_warning raw ∈ ws.
Proof.
  intros Hin Hascii Hbad.
  match goal with |- ∃ _ _, loads ?e _ _ ∧ _ => by_run e end.
  rewrite sample_warning_logged.
  unfold loaded; cbn [sample_every].
  unfold sample_raw, os.getenv_or. rewrite lookup_insert_eq.
  assert (Hnone : int.from_string raw = None).
  { destruct (int.from_string raw) as [n|] eqn:Hparse; [|reflexivity].
    apply PyLong_FromString_chars in Hparse.
    destruct (transform_keeps_offender int_literal_char raw c eq_refl Hin Hascii Hbad)
      as (c' & Hc' & Hbad').
    rewrite Forall_forall in Hparse. rewrite (Hparse c' Hc') in Hbad'. discriminate. }
  unfold accepted_sample. rewrite Hnone. repeat split; reflexivity.
Qed.
End IntExtras.

(** ** Which characters [float] reads *)

Lemma scan_digits_split s ds rest :
  scan_digits s = (ds, rest) ->
  ∃ pre, s = pre ++ rest ∧ Forall (λ c, Py_ISDIGIT c = true) pre.
Proof.
  revert ds. induction s as [|c s IH]; intros ds; cbn [scan_digits].
  - intros [= <- <-]. exists []. split; [reflexivity|constructor].
  - destruct (Py_ISDIGIT c) eqn:Hc.
    + destruct (scan_digits s) as [ds' rest'] eqn:Hrec. intros [= <- <-].
      destruct (IH _ eq_refl) as (pre & -> & Hpre).
      exists (c :: pre). split; [reflexivity|constructor; assumption].
    + intros [= <- <-]. exists []. split; [reflexivity|constructor].
Qed.

Lemma scan_sign_split s negative rest :
  scan_sign s = (negative, rest) ->
  ∃ sign, s = sign ++ rest ∧ Forall (λ c, c = chr "-" ∨ c = chr "+") sign.
Proof.
  unfold scan_sign. destruct s as [|c r].
  - intros [= _ <-]. exists []. split; [reflexivity|constructor].
  - destruct (N.eqb_spec c (chr "-")) as [->|_];
      [|destruct (N.eqb_spec c (chr "+")) as [->|_]]; intros [= _ <-].
    + exists [chr "-"]. split; [reflexivity|]. constructor; [left; reflexivity|constructor].
    + exists [chr "+"]. split; [reflexivity|]. constructor; [right; reflexivity|constructor].
    + exists []. split; [reflexivity|constructor].
Qed.

Lemma float_char_digit c : Py_ISDIGIT c = true -> float_literal_char c = true.
Proof.
  intros Hc. unfold float_literal_char. rewrite Hc. apply orb_true_iff. left.
  apply orb_true_r.
Qed.

Lemma float_char_space c : Py_ISSPACE c = true -> float_literal_char c = true.
Proof. intros Hc. unfold float_literal_char. rewrite Hc. reflexivity. Qed.

Lemma float_char_letter c b :
  Py_TOLOWER c = b -> b ∈ lit "_+-.einftya" -> float_literal_char c = true.
Proof.
  intros <- Hb. unfold float_literal_char. rewrite (bool_decide_true _ Hb).
  apply orb_true_r.
Qed.

Lemma float_chars_sign sign :
  Forall (λ c, c = chr "-" ∨ c = chr "+") sign ->
  Forall (λ c, float_literal_char c = true) sign.
Proof.
  intros Hsign. eapply Forall_impl; [exact Hsign|]. intros c [-> | ->]; reflexivity.
Qed.

Lemma float_chars_digits pre :
  Forall (λ c, Py_ISDIGIT c = true) pre ->
  Forall (λ c, float_literal_char c = true) pre.
Proof.
  intros Hpre. eapply Forall_impl; [exact Hpre|]. apply float_char_digit.
Qed.

Lemma float_chars_word p t :
  map Py_TOLOWER p = t -> Forall (λ b, b ∈ lit "_+-.einftya") t ->
  Forall (λ c, float_literal_char c = true) p.
Proof.
  intros <-. rewrite Forall_map. intros Hp. eapply Forall_impl; [exact Hp|].
  intros c Hc. exact (float_char_letter c _ eq_refl Hc).
Qed.

Lemma _Py_dg_strtod_chars s x :
  float._Py_dg_strtod s = Some (x, []) ->
  Forall (λ c, float_literal_char c = true) s.
Proof.
  unfold float._Py_dg_strtod.
  destruct (scan_sign s) as [sign s1] eqn:Hsign.
  destruct (scan_digits s1) as [int_digits s2] eqn:Hint.
  destruct (float.scan_fraction s2) as [frac_digits s3] eqn:Hfrac.
  destruct (int_digits ++ frac_digits); [discriminate|].
  destruct (_ || _); [discriminate|].
  destruct (float.scan_exponent s3) as [e rest] eqn:Hexp. intros [= _ ->].
  apply scan_sign_split in Hsign as (signs & -> & Hsigns).
  apply scan_digits_split in Hint as (ints & -> & Hints).
  assert (Hs3 : Forall (λ c, float_literal_char c = true) s3).
  { revert Hexp. unfold float.scan_exponent. destruct s3 as [|c r]; [constructor|].
    destruct (_ || _) eqn:He; [|intros [= _ Hr]; discriminate Hr].
    destruct (scan_sign r) as [esign r1] eqn:Hesign.
    destruct (scan_digits r1) as [ds r2] eqn:Hds.
    destruct ds; [intros [= _ Hr]; discriminate Hr|]. intros [= _ ->].
    apply scan_sign_split in Hesign as (esigns & -> & Hesigns).
    apply scan_digits_split in Hds as (eds & -> & Heds).
    constructor.
    - apply orb_true_iff in He as [->%N.eqb_eq | ->%N.eqb_eq]; reflexivity.
    - rewrite app_nil_r. apply Forall_app. split;
        [apply float_chars_sign, Hesigns|apply float_chars_digits, Heds]. }
  assert (Hs2 : Forall (λ c, float_literal_char c = true) s2).
  { revert Hfrac. unfold float.scan_fraction. destruct s2 as [|c r]; [constructor|].
    destruct (N.eqb_spec c (chr ".")) as [->|]; [|intros [= _ <-]; exact Hs3].
    intros (fracs & -> & Hfracs)%scan_digits_split.
    constructor; [reflexivity|]. apply Forall_app. split;
      [apply float_chars_digits, Hfracs|exact Hs3]. }
  apply Forall_app. split; [apply float_chars_sign, Hsigns|].
  apply Forall_app. split; [apply float_chars_digits, Hints|exact Hs2].
Qed.

Lemma _Py_parse_inf_or_nan_chars s x :
  float._Py_parse_inf_or_nan s = Some (x, []) ->
  Forall (λ c, float_literal_char c = true) s.
Proof.
  unfold float._Py_parse_inf_or_nan.
  destruct (scan_sign s) as [negate s1] eqn:Hsign.
  apply scan_sign_split in Hsign as (signs & -> & Hsigns).
  intros Hword. apply Forall_app. split; [apply float_chars_sign, Hsigns|].
  revert Hword.
  destruct (float.case_insensitive_match s1 (lit "inf")) as [r|] eqn:Hinf.
  - apply case_insensitive_match_spec in Hinf as (p & -> & Hp).
    assert (Hpchars : Forall (λ c, float_literal_char c = true) p).
    { apply (float_chars_word p _ Hp). repeat constructor; elem_of_compute. }
    destruct (float.case_insensitive_match r (lit "inity")) as [r'|] eqn:Hinity.
    + intros [= _ ->]. apply case_insensitive_match_spec in Hinity as (q & -> & Hq).
      rewrite app_nil_r. apply Forall_app. split; [exact Hpchars|].
      apply (float_chars_word q _ Hq). repeat constructor; elem_of_compute.
    + intros [= _ ->]. rewrite app_nil_r. exact Hpchars.
  - destruct (float.case_insensitive_match s1 (lit "nan")) as [r|] eqn:Hnan; [|discriminate].
    intros [= _ ->]. apply case_insensitive_match_spec in Hnan as (p & -> & Hp).
    rewrite app_nil_r. apply (float_chars_word p _ Hp). repeat constructor; elem_of_compute.
Qed.

Lemma float_from_string_inner_chars s x :
  float.float_from_string_inner s = Some x ->
  Forall (λ c, float_literal_char c = true) s.
Proof.
  unfold float.float_from_string_inner. fold (ascii_trim s).
  destruct (ascii_trim_split s) as (pre & post & Hs & Hpre & Hpost).
  intros Hparse.
  assert (Hbody : Forall (λ c, float_literal_char c = true) (ascii_trim s)).
  { revert Hparse. unfold float._PyOS_ascii_strtod.
    destruct (float._Py_dg_strtod (ascii_trim s)) as [[y rest]|] eqn:Hnum.
    - destruct rest; [|discriminate]. intros _. exact (_Py_dg_strtod_chars _ _ Hnum).
    - destruct (float._Py_parse_inf_or_nan (ascii_trim s)) as [[y rest]|] eqn:Hword;
        [|discriminate].
      destruct rest; [|discriminate]. intros _.
      exact (_Py_parse_inf_or_nan_chars _ _ Hword). }
  rewrite Hs. apply Forall_app. split.
  - eapply Forall_impl; [exact Hpre|]. apply float_char_space.
  - apply Forall_app. split; [exact Hbody|].
    eapply Forall_impl; [exact Hpost|]. apply float_char_space.
Qed.

Lemma remove_underscores_chars prev s t :
  float.remove_underscores prev s = Some t ->
  Forall (λ c, float_literal_char c = true) t ->
  Forall (λ c, float_literal_char c = true) s.
Proof.
  revert prev t. induction s as [|c s IH]; intros prev t; [constructor|].
  cbn [float.remove_underscores].
  destruct (c =? 0); [discriminate|].
  destruct (N.eqb_spec c (chr "_")) as [->|Hc].
  - destruct (Py_ISDIGIT prev); [|discriminate]. intros Hrec Ht.
    constructor; [reflexivity|exact (IH _ _ Hrec Ht)].
  - destruct (_ && _); [discriminate|].
    destruct (float.remove_underscores c s) as [t'|] eqn:Hrec; [|discriminate].
    cbn. intros [= <-] Ht. apply Forall_cons in Ht as [Hhead Htail].
    constructor; [exact Hhead|exact (IH _ _ Hrec Htail)].
Qed.

(** What [float] accepts is made of whitespace, digits, underscores,
    signs, points and the letters of e, inf, infinity and nan. *)
Lemma float_from_string_chars `{PythonRuntime} (s : list N) x :
  float.from_string s = Some x ->
  Forall (λ c, float_literal_char c = true) (str.TransformDecimalAndSpaceToASCII s).
Proof.
  unfold float.from_string, float.string_to_number_with_underscores.
  destruct (existsb _ _).
  - destruct (float.remove_underscores 0 _) as [t|] eqn:Hrem; [|discriminate].
    cbn. intros Ht%float_from_string_inner_chars.
    exact (remove_underscores_chars _ _ _ Hrem Ht).
  - cbn. apply float_from_string_inner_chars.
Qed.

(** ** ASCII whitespace around a number *)

Lemma skip_spaces_whitespace w :
  Forall (λ c, Py_ISSPACE c = true) w -> skip_spaces w = [].
Proof.
  induction 1 as [|c w Hc _ IH]; [reflexivity|]. cbn [skip_spaces]. rewrite Hc. exact IH.
Qed.

Lemma skip_spaces_app_spaces w s :
  Forall (λ c, Py_ISSPACE c = true) w -> skip_spaces (w ++ s) = skip_spaces s.
Proof.
  induction 1 as [|c w Hc _ IH]; [reflexivity|].
  cbn [app skip_spaces]. rewrite Hc. exact IH.
Qed.

Lemma skip_spaces_app_kept s w :
  skip_spaces s ≠ [] -> skip_spaces (s ++ w) = skip_spaces s ++ w.
Proof.
  induction s as [|c s IH]; [intros []; reflexivity|].
  cbn [app skip_spaces]. destruct (Py_ISSPACE c); [exact IH|reflexivity].
Qed.

Lemma skip_spaces_head s c r : skip_spaces s = c :: r -> Py_ISSPACE c = false.
Proof.
  induction s as [|d s IH]; [discriminate|].
  cbn [skip_spaces]. destruct (Py_ISSPACE d) eqn:Hd; [exact IH|].
  intros [= <- _]. exact Hd.
Qed.

(** Trailing whitespace does not change whether something is left after
    the leading whitespace. *)
Lemma skip_spaces_app_nil s w :
  Forall (λ c, Py_ISSPACE c = true) w ->
  skip_spaces (s ++ w) = [] ↔ skip_spaces s = [].
Proof.
  intros Hw. destruct (skip_spaces s) as [|c r] eqn:Hs.
  - apply skip_spaces_nil_inv in Hs.
    rewrite (skip_spaces_app_spaces s w Hs), (skip_spaces_whitespace w Hw). tauto.
  - rewrite skip_spaces_app_kept by (rewrite Hs; discriminate). rewrite Hs.
    split; discriminate.
Qed.

Lemma ascii_trim_padded w1 s w2 :
  Forall (λ c, Py_ISSPACE c = true) w1 ->
  Forall (λ c, Py_ISSPACE c = true) w2 ->
  ascii_trim (w1 ++ s ++ w2) = ascii_trim s.
Proof.
  intros Hw1 Hw2. unfold ascii_trim.
  rewrite (skip_spaces_app_spaces w1 _ Hw1).
  destruct (skip_spaces s) as [|c r] eqn:Hs.
  - apply skip_spaces_nil_inv in Hs.
    rewrite (skip_spaces_app_spaces s w2 Hs), (skip_spaces_whitespace w2 Hw2). reflexivity.
  - rewrite skip_spaces_app_kept by (rewrite Hs; discriminate).
    rewrite Hs, rev_app_distr, skip_spaces_app_spaces; [reflexivity|].
    apply Forall_rev. exact Hw2.
Qed.

Lemma space_class c :
  Py_ISSPACE c = true ->
  c < 128 ∧ Py_ISDIGIT c = false ∧ (c =? chr "_") = false ∧ (c =? 0) = false
  ∧ (c =? chr "-") = false ∧ (c =? chr "+") = false.
Proof.
  unfold Py_ISSPACE, Py_ISDIGIT.
  change (chr "_") with 95. change (chr "-") with 45. change (chr "+") with 43.
  destruct (N.leb_spec 9 c), (N.leb_spec c 13), (N.eqb_spec c 32), (N.leb_spec 48 c),
    (N.leb_spec c 57), (N.eqb_spec c 95), (N.eqb_spec c 0), (N.eqb_spec c 45),
    (N.eqb_spec c 43); cbn; intros; repeat split; try reflexivity; try discriminate; lia.
Qed.

Section Transform.
Context `{PythonRuntime}.

Lemma transform_app_ascii w s :
  Forall (λ c, c < 128) w ->
  str.TransformDecimalAndSpaceToASCII (w ++ s)
  = w ++ str.TransformDecimalAndSpaceToASCII s.
Proof.
  induction 1 as [|c w Hc _ IH]; [reflexivity|].
  cbn [app str.TransformDecimalAndSpaceToASCII].
  rewrite (proj2 (N.ltb_lt c 128) Hc), IH. reflexivity.
Qed.

(** After the translation, text appended to a string is appended to its
    translation, unless the translation was cut short. *)
Lemma transform_app_r s w :
  Forall (λ c, c < 128) w ->
  str.TransformDecimalAndSpaceToASCII (s ++ w) = str.TransformDecimalAndSpaceToASCII s ++ w
  ∨ str.TransformDecimalAndSpaceToASCII (s ++ w) = str.TransformDecimalAndSpaceToASCII s.
Proof.
  intros Hw. induction s as [|c s IH].
  - left. cbn [app]. rewrite <- (app_nil_r w) at 1.
    rewrite (transform_app_ascii w [] Hw). cbn. apply app_nil_r.
  - cbn [app str.TransformDecimalAndSpaceToASCII].
    destruct (c <? 128); [destruct IH as [-> | ->]; auto|].
    destruct (unicode_isspace c); [destruct IH as [-> | ->]; auto|].
    destruct (unicode_todecimal c); [destruct IH as [-> | ->]; auto|].
    right. reflexivity.
Qed.
End Transform.

(** *** [int] *)

Lemma scan_long_digits_app_spaces prev s w :
  Forall (λ c, Py_ISSPACE c = true) w ->
  int.scan_long_digits prev (s ++ w)
  = '(ds, rest) ← int.scan_long_digits prev s; Some (ds, rest ++ w).
Proof.
  intros Hw. revert prev. induction s as [|c s IH]; intros prev.
  - cbn [app]. destruct Hw as [|d w Hd Hw];
      [cbn [int.scan_long_digits]; destruct (prev =? chr "_"); reflexivity|].
    destruct (space_class d Hd) as (_ & Hdigit & Hus & _).
    cbn [int.scan_long_digits]. rewrite Hus, Hdigit.
    destruct (prev =? chr "_"); reflexivity.
  - cbn [app int.scan_long_digits]. destruct (c =? chr "_").
    + destruct (prev =? chr "_"); [reflexivity|apply IH].
    + destruct (Py_ISDIGIT c).
      * rewrite IH. destruct (int.scan_long_digits c s) as [[ds rest]|]; reflexivity.
      * destruct (prev =? chr "_"); reflexivity.
Qed.

Lemma PyLong_FromString_padded `{PythonRuntime} w1 (s : list N) w2 :
  Forall (λ c, Py_ISSPACE c = true) w1 ->
  Forall (λ c, Py_ISSPACE c = true) w2 ->
  int.PyLong_FromString (w1 ++ s ++ w2) = int.PyLong_FromString s.
Proof.
  intros Hw1 Hw2. unfold int.PyLong_FromString.
  rewrite (skip_spaces_app_spaces w1 _ Hw1).
  destruct (skip_spaces s) as [|c r] eqn:Hs.
  { apply skip_spaces_nil_inv in Hs.
    rewrite (skip_spaces_app_spaces s w2 Hs), (skip_spaces_whitespace w2 Hw2).
    reflexivity. }
  rewrite skip_spaces_app_kept by (rewrite Hs; discriminate). rewrite Hs.
  assert (Hsign : scan_sign ((c :: r) ++ w2)
                  = ((scan_sign (c :: r)).1, (scan_sign (c :: r)).2 ++ w2)).
  { unfold scan_sign. cbn [app].
    destruct (c =? chr "-"); [reflexivity|]. destruct (c =? chr "+"); reflexivity. }
  rewrite Hsign. destruct (scan_sign (c :: r)) as [negative s1]. cbn [fst snd].
  assert (Hlead : match s1 ++ w2 with
                  | [] => Some tt
                  | d :: _ => if d =? chr "_" then None else Some tt
                  end
                  = match s1 with
                    | [] => Some tt
                    | d :: _ => if d =? chr "_" then None else Some tt
                    end).
  { destruct s1 as [|d s1]; [|reflexivity]. cbn [app].
    destruct Hw2 as [|d w2 Hd _]; [reflexivity|].
    destruct (space_class d Hd) as (_ & _ & -> & _). reflexivity. }
  rewrite Hlead. destruct (match s1 with [] => _ | _ :: _ => _ end); [|reflexivity].
  cbn [mbind option_bind].
  rewrite (scan_long_digits_app_spaces 0 s1 w2 Hw2).
  destruct (int.scan_long_digits 0 s1) as [[ds rest]|]; [|reflexivity].
  cbn [mbind option_bind].
  destruct (_ && _); [reflexivity|].
  destruct ds as [|d ds]; [reflexivity|].
  pose proof (skip_spaces_app_nil rest w2 Hw2) as Hrest.
  destruct (skip_spaces (rest ++ w2)), (skip_spaces rest); try reflexivity.
  - discriminate (proj1 Hrest eq_refl).
  - discriminate (proj2 Hrest eq_refl).
Qed.

Lemma spaces_ascii w :
  Forall (λ c, Py_ISSPACE c = true) w -> Forall (λ c, c < 128) w.
Proof.
  intros Hw. eapply Forall_impl; [exact Hw|]. intros c Hc. apply (space_class c Hc).
Qed.

(** [int] does not see ASCII whitespace around its argument. *)
Lemma int_from_string_padded `{PythonRuntime} w1 (s : list N) w2 :
  Forall (λ c, Py_ISSPACE c = true) w1 ->
  Forall (λ c, Py_ISSPACE c = true) w2 ->
  int.from_string (w1 ++ s ++ w2) = int.from_string s.
Proof.
  intros Hw1 Hw2. unfold int.from_string.
  rewrite (transform_app_ascii w1 _ (spaces_ascii w1 Hw1)).
  destruct (transform_app_r s w2 (spaces_ascii w2 Hw2)) as [-> | ->].
  - apply PyLong_FromString_padded; assumption.
  - rewrite <- (app_nil_r (str.TransformDecimalAndSpaceToASCII s)) at 1.
    apply PyLong_FromString_padded; [assumption|constructor].
Qed.

(** *** [float] *)

Lemma remove_underscores_prev p1 p2 s :
  Py_ISDIGIT p1 = Py_ISDIGIT p2 ->
  (p1 =? chr "_") = (p2 =? chr "_") ->
  float.remove_underscores p1 s = float.remove_underscores p2 s.
Proof.
  intros Hdigit Hus. destruct s as [|c s]; cbn [float.remove_underscores];
    rewrite ?Hdigit, ?Hus; reflexivity.
Qed.

Lemma remove_underscores_spaces prev w :
  (prev =? chr "_") = false ->
  Forall (λ c, Py_ISSPACE c = true) w ->
  float.remove_underscores prev w = Some w.
Proof.
  intros Hprev Hw. revert prev Hprev.
  induction Hw as [|c w Hc _ IH]; intros prev Hprev; cbn [float.remove_underscores].
  - rewrite Hprev. reflexivity.
  - destruct (space_class c Hc) as (_ & _ & Hus & Hnul & _).
    rewrite Hnul, Hus, Hprev, (IH c Hus). reflexivity.
Qed.

Lemma remove_underscores_app_spaces prev s w :
  Forall (λ c, Py_ISSPACE c = true) w ->
  float.remove_underscores prev (s ++ w)
  = (λ t, t ++ w) <$> float.remove_underscores prev s.
Proof.
  intros Hw. revert prev. induction s as [|c s IH]; intros prev.
  - cbn [app]. destruct (prev =? chr "_") eqn:Hprev.
    + cbn [float.remove_underscores]. rewrite Hprev.
      destruct Hw as [|d w Hd _]; cbn [float.remove_underscores]; [rewrite Hprev; reflexivity|].
      destruct (space_class d Hd) as (_ & -> & -> & -> & _). rewrite Hprev. reflexivity.
    + rewrite (remove_underscores_spaces prev w Hprev Hw).
      cbn [float.remove_underscores]. rewrite Hprev. reflexivity.
  - cbn [app float.remove_underscores]. destruct (c =? 0); [reflexivity|].
    destruct (c =? chr "_").
    + destruct (Py_ISDIGIT prev); [apply IH|reflexivity].
    + destruct (_ && _); [reflexivity|]. rewrite IH.
      destruct (float.remove_underscores c s); reflexivity.
Qed.

Lemma remove_underscores_spaces_app prev w s :
  Py_ISDIGIT prev = false -> (prev =? chr "_") = false ->
  Forall (λ c, Py_ISSPACE c = true) w ->
  float.remove_underscores prev (w ++ s)
  = (λ t, w ++ t) <$> float.remove_underscores prev s.
Proof.
  intros Hdigit Hprev Hw. revert prev Hdigit Hprev.
  induction Hw as [|c w Hc _ IH]; intros prev Hdigit Hprev.
  - cbn [app]. destruct (float.remove_underscores prev s); reflexivity.
  - cbn [app float.remove_underscores].
    destruct (space_class c Hc) as (_ & Hcd & Hus & Hnul & _).
    rewrite Hnul, Hus, Hprev. cbn [andb]. rewrite (IH c Hcd Hus).
    rewrite (remove_underscores_prev c prev s) by congruence.
    destruct (float.remove_underscores prev s); reflexivity.
Qed.

Lemma existsb_underscore_padded w1 s w2 :
  Forall (λ c, Py_ISSPACE c = true) w1 ->
  Forall (λ c, Py_ISSPACE c = true) w2 ->
  existsb (N.eqb (chr "_")) (w1 ++ s ++ w2) = existsb (N.eqb (chr "_")) s.
Proof.
  intros Hw1 Hw2.
  assert (Hnone : ∀ w, Forall (λ c, Py_ISSPACE c = true) w ->
            existsb (N.eqb (chr "_")) w = false).
  { induction 1 as [|c w Hc _ IH]; [reflexivity|]. cbn [existsb].
    destruct (space_class c Hc) as (_ & _ & Hus & _).
    rewrite N.eqb_sym, Hus. exact IH. }
  rewrite !existsb_app, (Hnone w1 Hw1), (Hnone w2 Hw2), orb_false_r. reflexivity.
Qed.

Lemma float_from_string_inner_padded w1 s w2 :
  Forall (λ c, Py_ISSPACE c = true) w1 ->
  Forall (λ c, Py_ISSPACE c = true) w2 ->
  float.float_from_string_inner (w1 ++ s ++ w2) = float.float_from_string_inner s.
Proof.
  intros Hw1 Hw2. unfold float.float_from_string_inner.
  fold (ascii_trim (w1 ++ s ++ w2)). fold (ascii_trim s).
  rewrite (ascii_trim_padded w1 s w2 Hw1 Hw2). reflexivity.
Qed.

(** [float] does not see ASCII whitespace around its argument. *)
Lemma float_from_string_padded `{PythonRuntime} w1 (s : list N) w2 :
  Forall (λ c, Py_ISSPACE c = true) w1 ->
  Forall (λ c, Py_ISSPACE c = true) w2 ->
  float.from_string (w1 ++ s ++ w2) = float.from_string s.
Proof.
  intros Hw1 Hw2.
  assert (Hpad : ∀ t w, Forall (λ c, Py_ISSPACE c = true) w ->
            float.string_to_number_with_underscores (w1 ++ t ++ w)
              ≫= float.float_from_string_inner
            = float.string_to_number_with_underscores t
                ≫= float.float_from_string_inner).
  { intros t w Hw. unfold float.string_to_number_with_underscores.
    rewrite (existsb_underscore_padded w1 t w Hw1 Hw).
    destruct (existsb _ t).
    - rewrite (remove_underscores_spaces_app 0 w1 _ eq_refl eq_refl Hw1).
      rewrite (remove_underscores_app_spaces 0 t w Hw).
      destruct (float.remove_underscores 0 t) as [t'|]; [|reflexivity].
      cbn. apply float_from_string_inner_padded; assumption.
    - cbn. apply float_from_string_inner_padded; assumption. }
  unfold float.from_string.
  rewrite (transform_app_ascii w1 _ (spaces_ascii w1 Hw1)).
  destruct (transform_app_r s w2 (spaces_ascii w2 Hw2)) as [-> | ->].
  - apply Hpad, Hw2.
  - rewrite <- (app_nil_r (str.TransformDecimalAndSpaceToASCII s)) at 1.
    apply Hpad. constructor.
Qed.

Section MoreRunFacts.
Context `{PythonRuntime}.
Implicit Types (environ : gmap string (list N)).

(** Two environments give the same record, and as many warnings, when
    the flags, the stripped url, the lowered mode and what the two [try]
    blocks keep agree. *)
Lemma loaded_components environ1 environ2 :
  _env_bool environ1 "LIVE_VLM_WEBHOOK_ENABLED" false
    = _env_bool environ2 "LIVE_VLM_WEBHOOK_ENABLED" false ->
  str.strip (url_raw environ1) = str.strip (url_raw environ2) ->
  accepted_timeout (timeout_raw environ1) = accepted_timeout (timeout_raw environ2) ->
  lowered_mode environ1 = lowered_mode environ2 ->
  accepted_sample (sample_raw environ1) = accepted_sample (sample_raw environ2) ->
  _env_bool environ1 "LIVE_VLM_WEBHOOK_INCLUDE_METRICS" true
    = _env_bool environ2 "LIVE_VLM_WEBHOOK_INCLUDE_METRICS" true ->
  loaded environ1 = loaded environ2
  ∧ length (warnings environ1) = length (warnings environ2).
Proof.
  intros Henabled Hurl Htimeout Hmode Hsample Hmetrics.
  unfold loaded, warnings, enabled_without_url.
  rewrite Henabled, Hurl, Htimeout, Hmode, Hsample, Hmetrics.
  split; [reflexivity|]. rewrite !length_app.
  destruct (accepted_timeout (timeout_raw environ2)),
    (accepted_sample (sample_raw environ2)); reflexivity.
Qed.
End MoreRunFacts.

Section NumberExtras.
Context `{PythonRuntime}.
Implicit Types (environ : gmap string (list N)).

(** X10. A value of LIVE_VLM_WEBHOOK_TIMEOUT_SEC that holds an ASCII
    character that no float literal has (a comma, a unit, an x, ...) gives
    the timeout 2.0 and a warning naming the value. *)
Theorem timeout_rejects_other_characters environ (raw : list N) c :
  c ∈ raw -> c < 128 -> float_literal_char c = false ->
  ∃ cfg ws, loads (<["LIVE_VLM_WEBHOOK_TIMEOUT_SEC" := raw]> environ) cfg ws
    ∧ timeout_sec cfg = float_2_0 ∧ timeout_warning raw ∈ ws.
Proof.
  intros Hin Hascii Hbad.
  match goal with |- ∃ _ _, loads ?e _ _ ∧ _ => by_run e end.
  rewrite timeout_warning_logged.
  unfold loaded; cbn [timeout_sec].
  unfold timeout_raw, os.getenv_or. rewrite lookup_insert_eq.
  assert (Hnone : float.from_string raw = None).
  { destruct (float.from_string raw) as [x|] eqn:Hparse; [|reflexivity].
    apply float_from_string_chars in Hparse.
    destruct (transform_keeps_offender float_literal_char raw c eq_refl Hin Hascii Hbad)
      as (c' & Hc' & Hbad').
    rewrite Forall_forall in Hparse. rewrite (Hparse c' Hc') in Hbad'. discriminate. }
  unfold accepted_timeout. rewrite Hnone. repeat split; reflexivity.
Qed.

(** X11. ASCII whitespace around the value of
    LIVE_VLM_WEBHOOK_TIMEOUT_SEC or LIVE_VLM_WEBHOOK_SAMPLE_EVERY, which
    the loader does not strip, changes neither the returned record nor
    the number of warnings. *)
Theorem numeric_padding_ignored environ name (raw w1 w2 : list N) :
  name ∈ [ "LIVE_VLM_WEBHOOK_TIMEOUT_SEC"; "LIVE_VLM_WEBHOOK_SAMPLE_EVERY" ] ->
  Forall (λ c, Py_ISSPACE c = true) w1 ->
  Forall (λ c, Py_ISSPACE c = true) w2 ->
  ∃ cfg ws1 ws2,
    loads (<[name := w1 ++ raw ++ w2]> environ) cfg ws1
    ∧ loads (<[name := raw]> environ) cfg ws2
    ∧ length ws1 = length ws2.
Proof.
  intros Hname Hw1 Hw2.
  exists (loaded (<[name := w1 ++ raw ++ w2]> environ)),
    (warnings (<[name := w1 ++ raw ++ w2]> environ)),
    (warnings (<[name := raw]> environ)).
  split; [apply load_webhook_config_run|].
  assert (Hsame : loaded (<[name := w1 ++ raw ++ w2]> environ)
                  = loaded (<[name := raw]> environ)
                  ∧ length (warnings (<[name := w1 ++ raw ++ w2]> environ))
                    = length (warnings (<[name := raw]> environ))).
  { repeat (apply elem_of_cons in Hname as [->|Hname]);
      [..|destruct (proj1 (elem_of_nil _) Hname)];
      apply loaded_components; unfold accepted_timeout, accepted_sample;
      unfold_components;
      first [ rewrite !lookup_insert_ne by discriminate; reflexivity
            | rewrite !lookup_insert_eq;
              rewrite ?(float_from_string_padded w1 raw w2 Hw1 Hw2),
                ?(int_from_string_padded w1 raw w2 Hw1 Hw2); reflexivity ]. }
  destruct Hsame as [-> Hlen]. split; [apply load_webhook_config_run|exact Hlen].
Qed.

(** X12. A url of whitespace only counts as missing, like an unset one:
    with a true flag the loader returns a disabled record with the empty
    url and logs the warning. *)
Theorem blank_url_counts_as_missing environ (flag w : list N) :
  str.lower (str.strip flag) ∈ truthy ->
  Forall (λ c, str.isspace c = true) w ->
  (∃ cfg ws,
     loads (<["LIVE_VLM_WEBHOOK_ENABLED" := flag]>
              (<["LIVE_VLM_WEBHOOK_URL" := w]> environ)) cfg ws
     ∧ enabled cfg = false ∧ url cfg = [] ∧ url_warning ∈ ws)
  ∧ (∃ cfg ws,
       loads (<["LIVE_VLM_WEBHOOK_ENABLED" := flag]>
                (delete "LIVE_VLM_WEBHOOK_URL" environ)) cfg ws
       ∧ enabled cfg = false ∧ url cfg = [] ∧ url_warning ∈ ws).
Proof.
  intros Hflag Hw. split.
  - match goal with |- ∃ _ _, loads ?e _ _ ∧ _ => by_run e end.
    rewrite url_warning_logged.
    unfold loaded, enabled_without_url; cbn [enabled url]. unfold_components.
    rewrite lookup_insert_eq, lookup_insert_ne, lookup_insert_eq by discriminate.
    fold truthy. rewrite (bool_decide_true _ Hflag), (strip_whitespace w Hw).
    repeat split; reflexivity.
  - match goal with |- ∃ _ _, loads ?e _ _ ∧ _ => by_run e end.
    rewrite url_warning_logged.
    unfold loaded, enabled_without_url; cbn [enabled url]. unfold_components.
    rewrite lookup_insert_eq, lookup_insert_ne, lookup_delete_eq by discriminate.
    fold truthy. rewrite (bool_decide_true _ Hflag).
    repeat split; reflexivity.
Qed.
End NumberExtras.

(** ** The further properties at concrete inputs *)

Lemma whitespace_padding_ignored_witness :
  Forall (λ c, @str.isspace sample_runtime c = true) [0x20; 0xA0]
  ∧ Forall (λ c, @str.isspace sample_runtime c = true) [0x0A]
  ∧ @load_webhook_config sample_runtime
      (<["LIVE_VLM_WEBHOOK_URL" := [0x20; 0xA0] ++ lit "https://x" ++ [0x0A]]> ∅) []
    = @load_webhook_config sample_runtime
        (<["LIVE_VLM_WEBHOOK_URL" := lit "https://x"]> ∅) [].
Proof.
  assert (Hw1 : Forall (λ c, @str.isspace sample_runtime c = true) [0x20; 0xA0])
    by (repeat constructor).
  assert (Hw2 : Forall (λ c, @str.isspace sample_runtime c = true) [0x0A])
    by (repeat constructor).
  split; [exact Hw1|]. split; [exact Hw2|].
  apply (@whitespace_padding_ignored sample_runtime ∅ "LIVE_VLM_WEBHOOK_URL"
           (lit "https://x") [0x20; 0xA0] [0x0A]); [|exact Hw1|exact Hw2].
  apply (bool_decide_unpack _). vm_compute. exact I.
Defined.

Lemma ascii_case_ignored_witness :
  map Py_TOLOWER (lit "Multi") = map Py_TOLOWER (lit "MULTI")
  ∧ @load_webhook_config sample_runtime
      (<["LIVE_VLM_WEBHOOK_MODE" := lit "Multi"]> ∅) []
    = @load_webhook_config sample_runtime
        (<["LIVE_VLM_WEBHOOK_MODE" := lit "MULTI"]> ∅) [].
Proof.
  split; [reflexivity|].
  apply (@ascii_case_ignored sample_runtime ∅ "LIVE_VLM_WEBHOOK_MODE"
           (lit "Multi") (lit "MULTI")).
  - apply (bool_decide_unpack _). vm_compute. exact I.
  - repeat constructor.
  - repeat constructor.
  - reflexivity.
Defined.

Lemma sample_every_digit_string_witness :
  ∃ cfg ws,
    @loads sample_runtime (<["LIVE_VLM_WEBHOOK_SAMPLE_EVERY" := lit "0042"]> ∅) cfg ws
    ∧ sample_every cfg = 42%Z.
Proof.
  destruct (@sample_every_digit_string sample_runtime ∅ (lit "0042"))
    as (cfg & ws & Hloads & Hvalue).
  - discriminate.
  - repeat constructor.
  - exists cfg, ws. split; [exact Hloads|]. exact (proj1 Hvalue).
Defined.

Lemma sample_every_rejects_other_characters_witness :
  ∃ cfg ws,
    @loads sample_runtime (<["LIVE_VLM_WEBHOOK_SAMPLE_EVERY" := lit "7.0"]> ∅) cfg ws
    ∧ sample_every cfg = 1%Z ∧ sample_warning (lit "7.0") ∈ ws.
Proof.
  apply (@sample_every_rejects_other_characters sample_runtime ∅ (lit "7.0") (chr ".")).
  - apply (bool_decide_unpack _). vm_compute. exact I.
  - reflexivity.
  - reflexivity.
Defined.

Lemma timeout_rejects_other_characters_witness :
  ∃ cfg ws,
    @loads sample_runtime (<["LIVE_VLM_WEBHOOK_TIMEOUT_SEC" := lit "2,5"]> ∅) cfg ws
    ∧ timeout_sec cfg = float_2_0 ∧ timeout_warning (lit "2,5") ∈ ws.
Proof.
  apply (@timeout_rejects_other_characters sample_runtime ∅ (lit "2,5") (chr ",")).
  - apply (bool_decide_unpack _). vm_compute. exact I.
  - reflexivity.
  - reflexivity.
Defined.

Lemma numeric_padding_ignored_witness :
  ∃ cfg ws1 ws2,
    @loads sample_runtime
      (<["LIVE_VLM_WEBHOOK_TIMEOUT_SEC" := [0x20] ++ lit "5.5" ++ [0x0A]]> ∅) cfg ws1
    ∧ @loads sample_runtime (<["LIVE_VLM_WEBHOOK_TIMEOUT_SEC" := lit "5.5"]> ∅) cfg ws2
    ∧ length ws1 = length ws2.
Proof.
  apply (@numeric_padding_ignored sample_runtime ∅ "LIVE_VLM_WEBHOOK_TIMEOUT_SEC"
           (lit "5.5") [0x20] [0x0A]).
  - apply (bool_decide_unpack _). vm_compute. exact I.
  - repeat constructor.
  - repeat constructor.
Defined.

Lemma blank_url_counts_as_missing_witness :
  ∃ cfg ws,
    @loads sample_runtime
      (<["LIVE_VLM_WEBHOOK_ENABLED" := lit "YES"]>
         (<["LIVE_VLM_WEBHOOK_URL" := [0x20; 0x09]]> ∅)) cfg ws
    ∧ enabled cfg = false ∧ url cfg = [] ∧ url_warning ∈ ws.
Proof.
  refine (proj1 (@blank_url_counts_as_missing sample_runtime ∅ (lit "YES") [0x20; 0x09]
                   _ _)).
  - apply (bool_decide_unpack _). vm_compute. exact I.
  - repeat constructor.
Defined.
